(** * In-memory CRUD service for Person / Address / Course / Assignment

    A shallow embedding of [new_main.py] and of the Pydantic models under
    [models/].  The four module-level dictionaries are one [Store]; every
    route handler is a computation in a state-and-exception monad whose
    state survives a raised exception, as a Python global survives a
    [raise].  The values the handlers draw from the environment
    ([uuid4()], [datetime.utcnow()]) are explicit arguments. *)

From stdpp Require Import base option list strings gmap fin_maps pretty.
From Stdlib Require Import ZArith Lia Ascii.

Local Open Scope Z_scope.

(** ** Scalars *)

(** A [UUID] is its 128-bit integer value. *)
Definition UUID : Type := N.

(** A [datetime] is a count of microseconds; only its order matters. *)
Definition datetime : Type := Z.

Record date : Type := Date { year : N; month : N; day : N }.

#[global] Instance date_eq_dec : EqDecision date.
Proof. solve_decision. Defined.

(** ** Python values and keyword dictionaries *)

Module AddressBase.
(** Modelled from the spec: [models/address.py] is not among the sources.
    An Address has the five postal fields and a caller-chosen id. *)
Record t : Type := Build {
  id : UUID;
  street : string;
  city : string;
  state : string;
  postal_code : string;
  country : string
}.

#[global] Instance AddressBase_eq_dec : EqDecision t.
Proof. solve_decision. Defined.
End AddressBase.

(** What a field of a model, or an entry of a [model_dump()] dictionary,
    can hold.  [VInt], [VUuid], [VDate] stand for any input Pydantic
    accepts for that type. *)
Inductive value : Type :=
  | VNone
  | VStr (s : string)
  | VInt (z : Z)
  | VUuid (u : UUID)
  | VDate (d : date)
  | VDatetime (t : datetime)
  | VAddrs (l : list AddressBase.t).

#[global] Instance value_eq_dec : EqDecision value.
Proof. solve_decision. Defined.

#[global] Instance value_inhabited : Inhabited value := populate VNone.

(** A dictionary with string keys, as [model_dump()] returns and as
    a model constructor takes as keyword arguments. *)
Abbreviation pydict := (gmap string value).

(** [d.get(k, dflt)] *)
Definition dict_get (d : pydict) (k : string) (dflt : value) : value :=
  default dflt (d !! k).

(** [stored.update(newvals)]: entries of [newvals] win. *)
Definition dict_update (stored newvals : pydict) : pydict := newvals ∪ stored.

(** [any(f(x) for x in l)] *)
Definition any {A} (f : A → bool) (l : list A) : bool := existsb f l.

(** [list(m.values())] *)
Definition values {K A} `{Countable K} (m : gmap K A) : list A :=
  (map_to_list m).*2.

(** ** The environment of one request

    [uuid4] is what the [id] default factory returns, [utcnow] what the
    handler's own call of [datetime.utcnow()] returns, and the last two
    what the [created_at] and [updated_at] default factories return. *)
Record Env : Type := mkEnv {
  uuid4 : UUID;
  utcnow : datetime;
  utcnow_created : datetime;
  utcnow_updated : datetime
}.

(** ** Field validators

    [None] is a Pydantic [ValidationError]. *)

Definition field_str (d : pydict) (k : string) : option string :=
  match d !! k with Some (VStr s) => Some s | _ => None end.

Definition field_uuid (d : pydict) (k : string) : option UUID :=
  match d !! k with Some (VUuid u) => Some u | _ => None end.

(** A field with a default: the default is used, unvalidated, when the
    key is missing. *)
Definition field_default {A} (parse : value → option A) (d : pydict)
    (k : string) (dflt : A) : option A :=
  match d !! k with
  | None => Some dflt
  | Some v => parse v
  end.

Definition is_uuid (v : value) : option UUID :=
  match v with VUuid u => Some u | _ => None end.

Definition is_datetime (v : value) : option datetime :=
  match v with VDatetime t => Some t | _ => None end.

Definition is_addrs (v : value) : option (list AddressBase.t) :=
  match v with VAddrs l => Some l | _ => None end.

(** [Optional[T] = None] in an update model: [None] is a validation
    error, [Some None] the field left unset, [Some (Some v)] the field set
    to [v] (which may be [VNone]). *)
Definition unset_or {A} (parse : value → option A) (d : pydict) (k : string)
  : option (option A) :=
  match d !! k with
  | None => Some None
  | Some v => Some <$> parse v
  end.

Definition opt_str (v : value) : option (option string) :=
  match v with VNone => Some None | VStr s => Some (Some s) | _ => None end.

Definition opt_uuid (v : value) : option (option UUID) :=
  match v with VNone => Some None | VUuid u => Some (Some u) | _ => None end.

Definition opt_date (v : value) : option (option date) :=
  match v with VNone => Some None | VDate x => Some (Some x) | _ => None end.

Definition opt_addrs (v : value) : option (option (list AddressBase.t)) :=
  match v with VNone => Some None | VAddrs l => Some (Some l) | _ => None end.

(** [Optional[int]] with [ge=0, le=1000]. *)
Definition opt_points (v : value) : option (option Z) :=
  match v with
  | VNone => Some None
  | VInt z => if bool_decide (0 ≤ z ∧ z ≤ 1000) then Some (Some z) else None
  | _ => None
  end.

Definition dump_opt {A} (inj : A → value) (o : option A) : value :=
  match o with Some a => inj a | None => VNone end.

(** One entry of [model_dump(exclude_unset=True)]. *)
Definition dump_set {A} (k : string) (inj : A → value)
    (f : option (option A)) (d : pydict) : pydict :=
  match f with
  | None => d
  | Some o => <[k := dump_opt inj o]> d
  end.

(** ** models/course.py *)

Module CourseCreate.
Record t : Type := Build {
  code : string;
  title : string;
  instructor : string;
  semester : string
}.

Definition model_dump (c : t) : pydict :=
  <["code" := VStr (code c)]>
  (<["title" := VStr (title c)]>
  (<["instructor" := VStr (instructor c)]>
  (<["semester" := VStr (semester c)]> ∅))).

(** Parsing a request body. *)
Definition validate (body : pydict) : option t :=
  c ← field_str body "code";
  t ← field_str body "title";
  i ← field_str body "instructor";
  s ← field_str body "semester";
  Some (Build c t i s).
End CourseCreate.

Module CourseUpdate.
Record t : Type := Build {
  code : option (option string);
  title : option (option string);
  instructor : option (option string);
  semester : option (option string)
}.

(** [model_dump(exclude_unset=True)] *)
Definition model_dump_set (u : t) : pydict :=
  dump_set "code" VStr (code u)
  (dump_set "title" VStr (title u)
  (dump_set "instructor" VStr (instructor u)
  (dump_set "semester" VStr (semester u) ∅))).

Definition validate (body : pydict) : option t :=
  c ← unset_or opt_str body "code";
  t ← unset_or opt_str body "title";
  i ← unset_or opt_str body "instructor";
  s ← unset_or opt_str body "semester";
  Some (Build c t i s).
End CourseUpdate.

Module CourseRead.
Record t : Type := Build {
  code : string;
  title : string;
  instructor : string;
  semester : string;
  id : UUID;
  created_at : datetime;
  updated_at : datetime
}.

#[global] Instance CourseRead_eq_dec : EqDecision t.
Proof. solve_decision. Defined.

Definition model_dump (c : t) : pydict :=
  <["code" := VStr (code c)]>
  (<["title" := VStr (title c)]>
  (<["instructor" := VStr (instructor c)]>
  (<["semester" := VStr (semester c)]>
  (<["id" := VUuid (id c)]>
  (<["created_at" := VDatetime (created_at c)]>
  (<["updated_at" := VDatetime (updated_at c)]> ∅)))))).

(** [CourseRead] built from the keywords [data]; the default factories
    of [env] fill the fields missing from [data]. *)
Definition validate (env : Env) (data : pydict) : option t :=
  c ← field_str data "code";
  t ← field_str data "title";
  i ← field_str data "instructor";
  s ← field_str data "semester";
  u ← field_default is_uuid data "id" (uuid4 env);
  ca ← field_default is_datetime data "created_at" (utcnow_created env);
  ua ← field_default is_datetime data "updated_at" (utcnow_updated env);
  Some (Build c t i s u ca ua).
End CourseRead.

(** ** models/assignment.py *)

Module AssignmentCreate.
Record t : Type := Build {
  course_id : UUID;
  title : string;
  due_date : option date;
  points : option Z
}.

Definition model_dump (a : t) : pydict :=
  <["course_id" := VUuid (course_id a)]>
  (<["title" := VStr (title a)]>
  (<["due_date" := dump_opt VDate (due_date a)]>
  (<["points" := dump_opt VInt (points a)]> ∅))).

(** Parsing a request body: [points] defaults to 100 and is otherwise
    checked against [ge=0, le=1000]. *)
Definition validate (body : pydict) : option t :=
  c ← field_uuid body "course_id";
  t ← field_str body "title";
  d ← field_default opt_date body "due_date" None;
  p ← field_default opt_points body "points" (Some 100);
  Some (Build c t d p).
End AssignmentCreate.

Module AssignmentUpdate.
Record t : Type := Build {
  course_id : option (option UUID);
  title : option (option string);
  due_date : option (option date);
  points : option (option Z)
}.

Definition model_dump_set (u : t) : pydict :=
  dump_set "course_id" VUuid (course_id u)
  (dump_set "title" VStr (title u)
  (dump_set "due_date" VDate (due_date u)
  (dump_set "points" VInt (points u) ∅))).

Definition validate (body : pydict) : option t :=
  c ← unset_or opt_uuid body "course_id";
  t ← unset_or opt_str body "title";
  d ← unset_or opt_date body "due_date";
  p ← unset_or opt_points body "points";
  Some (Build c t d p).
End AssignmentUpdate.

Module AssignmentRead.
Record t : Type := Build {
  course_id : UUID;
  title : string;
  due_date : option date;
  points : option Z;
  id : UUID;
  created_at : datetime;
  updated_at : datetime
}.

#[global] Instance AssignmentRead_eq_dec : EqDecision t.
Proof. solve_decision. Defined.

Definition model_dump (a : t) : pydict :=
  <["course_id" := VUuid (course_id a)]>
  (<["title" := VStr (title a)]>
  (<["due_date" := dump_opt VDate (due_date a)]>
  (<["points" := dump_opt VInt (points a)]>
  (<["id" := VUuid (id a)]>
  (<["created_at" := VDatetime (created_at a)]>
  (<["updated_at" := VDatetime (updated_at a)]> ∅)))))).

Definition validate (env : Env) (data : pydict) : option t :=
  c ← field_uuid data "course_id";
  t ← field_str data "title";
  d ← field_default opt_date data "due_date" None;
  p ← field_default opt_points data "points" (Some 100);
  u ← field_default is_uuid data "id" (uuid4 env);
  ca ← field_default is_datetime data "created_at" (utcnow_created env);
  ua ← field_default is_datetime data "updated_at" (utcnow_updated env);
  Some (Build c t d p u ca ua).
End AssignmentRead.

(** ** models/address.py *)

Module AddressCreate.
(** Modelled from the spec: [models/address.py] is not among the sources.
    The create payload is the Address itself, id included. *)
Definition t : Type := AddressBase.t.

Definition model_dump (a : t) : pydict :=
  <["id" := VUuid (AddressBase.id a)]>
  (<["street" := VStr (AddressBase.street a)]>
  (<["city" := VStr (AddressBase.city a)]>
  (<["state" := VStr (AddressBase.state a)]>
  (<["postal_code" := VStr (AddressBase.postal_code a)]>
  (<["country" := VStr (AddressBase.country a)]> ∅))))).

Definition validate (body : pydict) : option t :=
  u ← field_uuid body "id";
  s ← field_str body "street";
  c ← field_str body "city";
  st ← field_str body "state";
  p ← field_str body "postal_code";
  co ← field_str body "country";
  Some (AddressBase.Build u s c st p co).
End AddressCreate.

Module AddressUpdate.
(** Modelled from the spec: an update variant makes every field of the
    schema optional; the id and the timestamps are not part of it. *)
Record t : Type := Build {
  street : option (option string);
  city : option (option string);
  state : option (option string);
  postal_code : option (option string);
  country : option (option string)
}.

Definition model_dump_set (u : t) : pydict :=
  dump_set "street" VStr (street u)
  (dump_set "city" VStr (city u)
  (dump_set "state" VStr (state u)
  (dump_set "postal_code" VStr (postal_code u)
  (dump_set "country" VStr (country u) ∅)))).

Definition validate (body : pydict) : option t :=
  s ← unset_or opt_str body "street";
  c ← unset_or opt_str body "city";
  st ← unset_or opt_str body "state";
  p ← unset_or opt_str body "postal_code";
  co ← unset_or opt_str body "country";
  Some (Build s c st p co).
End AddressUpdate.

Module AddressRead.
(** Modelled from the spec: a Read-variant record carries id, created_at
    and updated_at next to the fields of the schema. *)
Record t : Type := Build {
  id : UUID;
  street : string;
  city : string;
  state : string;
  postal_code : string;
  country : string;
  created_at : datetime;
  updated_at : datetime
}.

#[global] Instance AddressRead_eq_dec : EqDecision t.
Proof. solve_decision. Defined.

Definition model_dump (a : t) : pydict :=
  <["id" := VUuid (id a)]>
  (<["street" := VStr (street a)]>
  (<["city" := VStr (city a)]>
  (<["state" := VStr (state a)]>
  (<["postal_code" := VStr (postal_code a)]>
  (<["country" := VStr (country a)]>
  (<["created_at" := VDatetime (created_at a)]>
  (<["updated_at" := VDatetime (updated_at a)]> ∅))))))).

Definition validate (env : Env) (data : pydict) : option t :=
  u ← field_uuid data "id";
  s ← field_str data "street";
  c ← field_str data "city";
  st ← field_str data "state";
  p ← field_str data "postal_code";
  co ← field_str data "country";
  ca ← field_default is_datetime data "created_at" (utcnow_created env);
  ua ← field_default is_datetime data "updated_at" (utcnow_updated env);
  Some (Build u s c st p co ca ua).
End AddressRead.

(** ** models/person.py *)

Module PersonCreate.
(** Modelled from the spec: [models/person.py] is not among the sources.
    Every scalar field of the profile may be missing; the addresses are
    an ordered sequence of embedded Addresses. *)
Record t : Type := Build {
  uni : option string;
  first_name : option string;
  last_name : option string;
  email : option string;
  phone : option string;
  birth_date : option date;
  addresses : list AddressBase.t
}.

Definition model_dump (p : t) : pydict :=
  <["uni" := dump_opt VStr (uni p)]>
  (<["first_name" := dump_opt VStr (first_name p)]>
  (<["last_name" := dump_opt VStr (last_name p)]>
  (<["email" := dump_opt VStr (email p)]>
  (<["phone" := dump_opt VStr (phone p)]>
  (<["birth_date" := dump_opt VDate (birth_date p)]>
  (<["addresses" := VAddrs (addresses p)]> ∅)))))).

Definition validate (body : pydict) : option t :=
  u ← field_default opt_str body "uni" None;
  f ← field_default opt_str body "first_name" None;
  l ← field_default opt_str body "last_name" None;
  e ← field_default opt_str body "email" None;
  ph ← field_default opt_str body "phone" None;
  b ← field_default opt_date body "birth_date" None;
  a ← field_default is_addrs body "addresses" [];
  Some (Build u f l e ph b a).
End PersonCreate.

Module PersonUpdate.
(** Modelled from the spec, as [AddressUpdate]. *)
Record t : Type := Build {
  uni : option (option string);
  first_name : option (option string);
  last_name : option (option string);
  email : option (option string);
  phone : option (option string);
  birth_date : option (option date);
  addresses : option (option (list AddressBase.t))
}.

Definition model_dump_set (u : t) : pydict :=
  dump_set "uni" VStr (uni u)
  (dump_set "first_name" VStr (first_name u)
  (dump_set "last_name" VStr (last_name u)
  (dump_set "email" VStr (email u)
  (dump_set "phone" VStr (phone u)
  (dump_set "birth_date" VDate (birth_date u)
  (dump_set "addresses" VAddrs (addresses u) ∅)))))).

Definition validate (body : pydict) : option t :=
  u ← unset_or opt_str body "uni";
  f ← unset_or opt_str body "first_name";
  l ← unset_or opt_str body "last_name";
  e ← unset_or opt_str body "email";
  ph ← unset_or opt_str body "phone";
  b ← unset_or opt_date body "birth_date";
  a ← unset_or opt_addrs body "addresses";
  Some (Build u f l e ph b a).
End PersonUpdate.

Module PersonRead.
(** Modelled from the spec, as [AddressRead]; the id is generated. *)
Record t : Type := Build {
  uni : option string;
  first_name : option string;
  last_name : option string;
  email : option string;
  phone : option string;
  birth_date : option date;
  addresses : list AddressBase.t;
  id : UUID;
  created_at : datetime;
  updated_at : datetime
}.

#[global] Instance PersonRead_eq_dec : EqDecision t.
Proof. solve_decision. Defined.

Definition model_dump (p : t) : pydict :=
  <["uni" := dump_opt VStr (uni p)]>
  (<["first_name" := dump_opt VStr (first_name p)]>
  (<["last_name" := dump_opt VStr (last_name p)]>
  (<["email" := dump_opt VStr (email p)]>
  (<["phone" := dump_opt VStr (phone p)]>
  (<["birth_date" := dump_opt VDate (birth_date p)]>
  (<["addresses" := VAddrs (addresses p)]>
  (<["id" := VUuid (id p)]>
  (<["created_at" := VDatetime (created_at p)]>
  (<["updated_at" := VDatetime (updated_at p)]> ∅))))))))).

Definition validate (env : Env) (data : pydict) : option t :=
  u ← field_default opt_str data "uni" None;
  f ← field_default opt_str data "first_name" None;
  l ← field_default opt_str data "last_name" None;
  e ← field_default opt_str data "email" None;
  ph ← field_default opt_str data "phone" None;
  b ← field_default opt_date data "birth_date" None;
  a ← field_default is_addrs data "addresses" [];
  i ← field_default is_uuid data "id" (uuid4 env);
  ca ← field_default is_datetime data "created_at" (utcnow_created env);
  ua ← field_default is_datetime data "updated_at" (utcnow_updated env);
  Some (Build u f l e ph b a i ca ua).
End PersonRead.

(** [n] zeros. *)
Fixpoint zeros (n : nat) : string :=
  match n with
  | O => ""
  | S n' => String "0"%char (zeros n')
  end.

(** The digits [s] padded with zeros on the left to [width] characters,
    as ["%04d"] and ["%02d"] do; longer digits are left as they are. *)
Definition zfill (width : nat) (s : string) : string :=
  zeros (width - String.length s) +:+ s.

(** [str(d)] of a [date]: ISO format, ["%04d-%02d-%02d"]. *)

Definition str_date (d : date) : string :=
  zfill 4 (pretty (year d)) +:+ "-" +:+ zfill 2 (pretty (month d))
  +:+ "-" +:+ zfill 2 (pretty (day d)).

(** [str(p.birth_date)], where [str(None)] is ["None"]. *)
Definition str_birth_date (b : option date) : string :=
  match b with Some d => str_date d | None => "None" end.

(** ** The four in-memory stores *)

Record Store : Type := mkStore {
  persons : gmap UUID PersonRead.t;
  addresses : gmap UUID AddressRead.t;
  courses : gmap UUID CourseRead.t;
  assignments : gmap UUID AssignmentRead.t
}.

Definition empty_store : Store := mkStore ∅ ∅ ∅ ∅.

Definition set_persons (m : gmap UUID PersonRead.t) (st : Store) : Store :=
  mkStore m (addresses st) (courses st) (assignments st).
Definition set_addresses (m : gmap UUID AddressRead.t) (st : Store) : Store :=
  mkStore (persons st) m (courses st) (assignments st).
Definition set_courses (m : gmap UUID CourseRead.t) (st : Store) : Store :=
  mkStore (persons st) (addresses st) m (assignments st).
Definition set_assignments (m : gmap UUID AssignmentRead.t) (st : Store)
  : Store :=
  mkStore (persons st) (addresses st) (courses st) m.

(** ** Exceptions and the handler monad *)

Inductive exn : Type :=
  | HTTPException (status_code : Z) (detail : string)
  (** the request body does not fit the declared model: FastAPI answers
      422 and the handler is not entered *)
  | RequestValidationError
  (** a Pydantic [ValidationError] raised inside the handler *)
  | ValidationError
  (** [d[k]] or [del d[k]] on a missing key *)
  | KeyError.

#[global] Instance exn_eq_dec : EqDecision exn.
Proof. solve_decision. Defined.

(** The spec's names for the handlers' errors. *)
Definition NotFound (detail : string) : exn := HTTPException 404 detail.
Definition Conflict : exn :=
  HTTPException 409 "Course already exists for this semester".
Definition BadReference : exn :=
  HTTPException 400 "course_id must refer to an existing course".
Definition DuplicateId : exn :=
  HTTPException 400 "Address with this ID already exists".

(** A handler maps the store to the store it leaves behind and either the
    exception it raised or its result. *)
Definition M (A : Type) : Type := Store → Store * (exn + A).

Definition ret {A} (a : A) : M A := λ st, (st, inr a).

Definition bind {A B} (m : M A) (f : A → M B) : M B :=
  λ st, match m st with
        | (st', inl e) => (st', inl e)
        | (st', inr a) => f a st'
        end.

Definition raise {A} (e : exn) : M A := λ st, (st, inl e).

Definition gets {A} (f : Store → A) : M A := λ st, (st, inr (f st)).

Definition modify (f : Store → Store) : M unit := λ st, (f st, inr tt).

(** A model constructor called inside a handler. *)
Definition construct {A} (o : option A) : M A :=
  match o with Some a => ret a | None => raise ValidationError end.

(** A request body parsed before the handler is entered. *)
Definition parse_body {A} (o : option A) : M A :=
  match o with Some a => ret a | None => raise RequestValidationError end.

Declare Scope handler_scope.
Delimit Scope handler_scope with handler.
Notation "'do' x <- m ; k" := (bind m (λ x, k))
  (at level 10, x name, m at level 100, k at level 200) : handler_scope.
Notation "m ;; k" := (bind m (λ _, k))
  (at level 100, k at level 200, right associativity) : handler_scope.
Local Open Scope handler_scope.

(** [return d[k]] *)
Definition getitem {A} (d : Store → gmap UUID A) (k : UUID) : M A :=
  λ st, match d st !! k with
        | Some a => (st, inr a)
        | None => (st, inl KeyError)
        end.

(** [del d[k]] *)
Definition delitem {A} (d : Store → gmap UUID A)
    (set_d : gmap UUID A → Store → Store) (k : UUID) : M unit :=
  λ st, match d st !! k with
        | Some _ => (set_d (delete k (d st)) st, inr tt)
        | None => (st, inl KeyError)
        end.

(** [d[k] = a] *)
Definition setitem {A} (d : Store → gmap UUID A)
    (set_d : gmap UUID A → Store → Store) (k : UUID) (a : A) : M unit :=
  modify (λ st, set_d (<[k := a]> (d st)) st).

(** [for x in l: body(x)] *)
Fixpoint for_each {A} (l : list A) (body : A → M unit) : M unit :=
  match l with
  | [] => ret tt
  | x :: l' => body x;; for_each l' body
  end.

(** [v in d] for a dictionary keyed by UUID: a value that is no UUID is
    no key. *)
Definition key_in {A} (v : value) (d : gmap UUID A) : bool :=
  match v with
  | VUuid u => bool_decide (is_Some (d !! u))
  | _ => false
  end.

(** [results = [x for x in results if P q x]] under [if q is not None]. *)
Definition filter_by {A B} (q : option B) (P : B → A → bool)
    (results : list A) : list A :=
  match q with
  | Some b => List.filter (P b) results
  | None => results
  end.

(** ** new_main.py: addresses *)

Definition create_address (env : Env) (address : AddressCreate.t)
  : M AddressRead.t :=
  do ads <- gets addresses;
  if bool_decide (is_Some (ads !! AddressBase.id address)) then
    raise DuplicateId
  else
    do r <- construct
              (AddressRead.validate env (AddressCreate.model_dump address));
    setitem addresses set_addresses (AddressBase.id address) r;;
    getitem addresses (AddressBase.id address).

Module AddressQuery.
Record t : Type := Build {
  street : option string;
  city : option string;
  state : option string;
  postal_code : option string;
  country : option string
}.
End AddressQuery.

Definition list_addresses (q : AddressQuery.t) : M (list AddressRead.t) :=
  do ads <- gets addresses;
  let results := values ads in
  let results :=
    filter_by (AddressQuery.street q)
      (λ street a, bool_decide (AddressRead.street a = street)) results in
  let results :=
    filter_by (AddressQuery.city q)
      (λ city a, bool_decide (AddressRead.city a = city)) results in
  let results :=
    filter_by (AddressQuery.state q)
      (λ state a, bool_decide (AddressRead.state a = state)) results in
  let results :=
    filter_by (AddressQuery.postal_code q)
      (λ postal_code a, bool_decide (AddressRead.postal_code a = postal_code)) results in
  let results :=
    filter_by (AddressQuery.country q)
      (λ country a, bool_decide (AddressRead.country a = country)) results in
  ret results.

Definition get_address (address_id : UUID) : M AddressRead.t :=
  do ads <- gets addresses;
  if bool_decide (ads !! address_id = None) then
    raise (NotFound "Address not found")
  else getitem addresses address_id.

Definition update_address (env : Env) (address_id : UUID)
    (update : AddressUpdate.t) : M AddressRead.t :=
  do ads <- gets addresses;
  match ads !! address_id with
  | None => raise (NotFound "Address not found")
  | Some cur =>
    let stored := AddressRead.model_dump cur in
    let stored := dict_update stored (AddressUpdate.model_dump_set update) in
    do r <- construct (AddressRead.validate env stored);
    setitem addresses set_addresses address_id r;;
    getitem addresses address_id
  end.

(** ** new_main.py: persons *)

Definition create_person (env : Env) (person : PersonCreate.t)
  : M PersonRead.t :=
  do person_read <- construct
                      (PersonRead.validate env (PersonCreate.model_dump person));
  setitem persons set_persons (PersonRead.id person_read) person_read;;
  ret person_read.

Module PersonQuery.
Record t : Type := Build {
  uni : option string;
  first_name : option string;
  last_name : option string;
  email : option string;
  phone : option string;
  birth_date : option string;
  city : option string;
  country : option string
}.
End PersonQuery.

Definition list_persons (q : PersonQuery.t) : M (list PersonRead.t) :=
  do ps <- gets persons;
  let results := values ps in
  let results :=
    filter_by (PersonQuery.uni q)
      (λ uni p, bool_decide (PersonRead.uni p = Some uni)) results in
  let results :=
    filter_by (PersonQuery.first_name q)
      (λ first_name p, bool_decide (PersonRead.first_name p = Some first_name)) results in
  let results :=
    filter_by (PersonQuery.last_name q)
      (λ last_name p, bool_decide (PersonRead.last_name p = Some last_name)) results in
  let results :=
    filter_by (PersonQuery.email q)
      (λ email p, bool_decide (PersonRead.email p = Some email)) results in
  let results :=
    filter_by (PersonQuery.phone q)
      (λ phone p, bool_decide (PersonRead.phone p = Some phone)) results in
  let results :=
    filter_by (PersonQuery.birth_date q)
      (λ birth_date p,
         bool_decide (str_birth_date (PersonRead.birth_date p) = birth_date))
      results in
  let results :=
    filter_by (PersonQuery.city q)
      (λ city p,
         any (λ addr, bool_decide (AddressBase.city addr = city))
             (PersonRead.addresses p)) results in
  let results :=
    filter_by (PersonQuery.country q)
      (λ country p,
         any (λ addr, bool_decide (AddressBase.country addr = country))
             (PersonRead.addresses p)) results in
  ret results.

Definition get_person (person_id : UUID) : M PersonRead.t :=
  do ps <- gets persons;
  if bool_decide (ps !! person_id = None) then
    raise (NotFound "Person not found")
  else getitem persons person_id.

Definition update_person (env : Env) (person_id : UUID)
    (update : PersonUpdate.t) : M PersonRead.t :=
  do ps <- gets persons;
  match ps !! person_id with
  | None => raise (NotFound "Person not found")
  | Some cur =>
    let stored := PersonRead.model_dump cur in
    let stored := dict_update stored (PersonUpdate.model_dump_set update) in
    do r <- construct (PersonRead.validate env stored);
    setitem persons set_persons person_id r;;
    getitem persons person_id
  end.

(** ** new_main.py: courses *)

Definition create_course (env : Env) (course : CourseCreate.t)
  : M CourseRead.t :=
  do cs <- gets courses;
  (* simple uniqueness check: (code, semester) *)
  if any (λ c, bool_decide (CourseRead.code c = CourseCreate.code course)
               && bool_decide
                    (CourseRead.semester c = CourseCreate.semester course))
         (values cs)
  then raise Conflict
  else
    let data := CourseCreate.model_dump course in
    let data := <["created_at" := VDatetime (utcnow env)]> data in
    let data := <["updated_at" := data !!! "created_at"]> data in
    do record <- construct (CourseRead.validate env data);
    setitem courses set_courses (CourseRead.id record) record;;
    ret record.

Module CourseQuery.
Record t : Type := Build {
  code : option string;
  semester : option string;
  instructor : option string
}.
End CourseQuery.

Definition list_courses (q : CourseQuery.t) : M (list CourseRead.t) :=
  do cs <- gets courses;
  let result := values cs in
  let result :=
    filter_by (CourseQuery.code q)
      (λ code c, bool_decide (CourseRead.code c = code)) result in
  let result :=
    filter_by (CourseQuery.semester q)
      (λ semester c, bool_decide (CourseRead.semester c = semester)) result in
  let result :=
    filter_by (CourseQuery.instructor q)
      (λ instructor c, bool_decide (CourseRead.instructor c = instructor))
      result in
  ret result.

Definition get_course (course_id : UUID) : M CourseRead.t :=
  do cs <- gets courses;
  if bool_decide (cs !! course_id = None) then
    raise (NotFound "Course not found")
  else getitem courses course_id.

Definition update_course (env : Env) (course_id : UUID)
    (update : CourseUpdate.t) : M CourseRead.t :=
  do cs <- gets courses;
  match cs !! course_id with
  | None => raise (NotFound "Course not found")
  | Some cur =>
    let stored := CourseRead.model_dump cur in
    let newvals := CourseUpdate.model_dump_set update in
    (* if code/semester change, check for uniqueness *)
    let new_code := dict_get newvals "code" (stored !!! "code") in
    let new_sem := dict_get newvals "semester" (stored !!! "semester") in
    if any (λ c, bool_decide (CourseRead.id c ≠ course_id)
                 && bool_decide (VStr (CourseRead.code c) = new_code)
                 && bool_decide (VStr (CourseRead.semester c) = new_sem))
           (values cs)
    then raise Conflict
    else
      let stored := dict_update stored newvals in
      let stored := <["updated_at" := VDatetime (utcnow env)]> stored in
      do r <- construct (CourseRead.validate env stored);
      setitem courses set_courses course_id r;;
      getitem courses course_id
  end.

Definition delete_course (course_id : UUID) : M unit :=
  do cs <- gets courses;
  if bool_decide (cs !! course_id = None) then
    raise (NotFound "Course not found")
  else
    (* cascade: delete assignments for this course *)
    do asg <- gets assignments;
    for_each
      (filter (λ kv, AssignmentRead.course_id kv.2 = course_id)
              (map_to_list asg)).*1
      (λ aid, delitem assignments set_assignments aid);;
    delitem courses set_courses course_id.

(** ** new_main.py: assignments *)

Definition create_assignment (env : Env) (assignment : AssignmentCreate.t)
  : M AssignmentRead.t :=
  do cs <- gets courses;
  if negb (bool_decide (is_Some (cs !! AssignmentCreate.course_id assignment)))
  then raise BadReference
  else
    let data := AssignmentCreate.model_dump assignment in
    let data := <["created_at" := VDatetime (utcnow env)]> data in
    let data := <["updated_at" := data !!! "created_at"]> data in
    do record <- construct (AssignmentRead.validate env data);
    setitem assignments set_assignments (AssignmentRead.id record) record;;
    ret record.

Definition list_assignments (course_id : option UUID)
  : M (list AssignmentRead.t) :=
  do asg <- gets assignments;
  let result := values asg in
  let result :=
    filter_by course_id
      (λ course_id a, bool_decide (AssignmentRead.course_id a = course_id))
      result in
  ret result.

Definition get_assignment (assignment_id : UUID) : M AssignmentRead.t :=
  do asg <- gets assignments;
  if bool_decide (asg !! assignment_id = None) then
    raise (NotFound "Assignment not found")
  else getitem assignments assignment_id.

Definition update_assignment (env : Env) (assignment_id : UUID)
    (update : AssignmentUpdate.t) : M AssignmentRead.t :=
  do asg <- gets assignments;
  match asg !! assignment_id with
  | None => raise (NotFound "Assignment not found")
  | Some cur =>
    let stored := AssignmentRead.model_dump cur in
    let newvals := AssignmentUpdate.model_dump_set update in
    do cs <- gets courses;
    if bool_decide (is_Some (newvals !! "course_id"))
       && negb (key_in (newvals !!! "course_id") cs)
    then raise BadReference
    else
      let stored := dict_update stored newvals in
      let stored := <["updated_at" := VDatetime (utcnow env)]> stored in
      do r <- construct (AssignmentRead.validate env stored);
      setitem assignments set_assignments assignment_id r;;
      getitem assignments assignment_id
  end.

Definition delete_assignment (assignment_id : UUID) : M unit :=
  do asg <- gets assignments;
  if bool_decide (asg !! assignment_id = None) then
    raise (NotFound "Assignment not found")
  else delitem assignments set_assignments assignment_id.

(** ** The routes

    FastAPI parses the request body into the handler's parameter model
    and answers 422 without entering the handler when that fails. *)

Inductive request : Type :=
  | POST_addresses (body : pydict)
  | PATCH_addresses (address_id : UUID) (body : pydict)
  | POST_persons (body : pydict)
  | PATCH_persons (person_id : UUID) (body : pydict)
  | POST_courses (body : pydict)
  | PATCH_courses (course_id : UUID) (body : pydict)
  | DELETE_courses (course_id : UUID)
  | POST_assignments (body : pydict)
  | PATCH_assignments (assignment_id : UUID) (body : pydict)
  | DELETE_assignments (assignment_id : UUID).

Inductive response : Type :=
  | RAddress (a : AddressRead.t)
  | RPerson (p : PersonRead.t)
  | RCourse (c : CourseRead.t)
  | RAssignment (a : AssignmentRead.t)
  | RNoContent.

Definition fmapM {A B} (f : A → B) (m : M A) : M B :=
  do a <- m; ret (f a).

Definition route (env : Env) (rq : request) : M response :=
  match rq with
  | POST_addresses body =>
      do address <- parse_body (AddressCreate.validate body);
      fmapM RAddress (create_address env address)
  | PATCH_addresses address_id body =>
      do update <- parse_body (AddressUpdate.validate body);
      fmapM RAddress (update_address env address_id update)
  | POST_persons body =>
      do person <- parse_body (PersonCreate.validate body);
      fmapM RPerson (create_person env person)
  | PATCH_persons person_id body =>
      do update <- parse_body (PersonUpdate.validate body);
      fmapM RPerson (update_person env person_id update)
  | POST_courses body =>
      do course <- parse_body (CourseCreate.validate body);
      fmapM RCourse (create_course env course)
  | PATCH_courses course_id body =>
      do update <- parse_body (CourseUpdate.validate body);
      fmapM RCourse (update_course env course_id update)
  | DELETE_courses course_id =>
      delete_course course_id;; ret RNoContent
  | POST_assignments body =>
      do assignment <- parse_body (AssignmentCreate.validate body);
      fmapM RAssignment (create_assignment env assignment)
  | PATCH_assignments assignment_id body =>
      do update <- parse_body (AssignmentUpdate.validate body);
      fmapM RAssignment (update_assignment env assignment_id update)
  | DELETE_assignments assignment_id =>
      delete_assignment assignment_id;; ret RNoContent
  end.

(** The store after serving a sequence of requests, each in its own
    environment, whatever each one answered. *)
Fixpoint serve (rqs : list (Env * request)) (st : Store) : Store :=
  match rqs with
  | [] => st
  | (env, rq) :: rqs' => serve rqs' (route env rq st).1
  end.

(** * Vocabulary of the properties *)

(** The assignments that a cascading course delete leaves behind. *)
Definition cascade (course_id : UUID) (asg : gmap UUID AssignmentRead.t)
  : gmap UUID AssignmentRead.t :=
  filter (λ kv, AssignmentRead.course_id kv.2 ≠ course_id) asg.

(** The entry a partial update leaves under a key: the payload's value
    when the payload sets the field, the stored one otherwise. *)
Definition patched {A} (inj : A → value) (f : option (option A))
    (old : value) : value :=
  match f with Some o => dump_opt inj o | None => old end.

Definition new_course (env : Env) (course : CourseCreate.t) : CourseRead.t :=
  CourseRead.Build (CourseCreate.code course) (CourseCreate.title course)
    (CourseCreate.instructor course) (CourseCreate.semester course)
    (uuid4 env) (utcnow env) (utcnow env).

(** Some stored course has this (code, semester). *)
Definition course_taken (cs : gmap UUID CourseRead.t) (code semester : string)
  : bool :=
  any (λ c, bool_decide (CourseRead.code c = code)
            && bool_decide (CourseRead.semester c = semester)) (values cs).

(** The keywords [update_course] hands to [CourseRead]. *)
Definition course_kwargs (env : Env) (cur : CourseRead.t)
    (update : CourseUpdate.t) : pydict :=
  <["updated_at" := VDatetime (utcnow env)]>
    (dict_update (CourseRead.model_dump cur)
                 (CourseUpdate.model_dump_set update)).

(** Another stored course has this (code, semester). *)
Definition course_clash (cs : gmap UUID CourseRead.t) (course_id : UUID)
    (new_code new_sem : value) : bool :=
  any (λ c, bool_decide (CourseRead.id c ≠ course_id)
            && bool_decide (VStr (CourseRead.code c) = new_code)
            && bool_decide (VStr (CourseRead.semester c) = new_sem))
      (values cs).

Definition valid_points (p : option Z) : bool :=
  match p with
  | Some z => bool_decide (0 ≤ z ∧ z ≤ 1000)
  | None => true
  end.

Definition new_assignment (env : Env) (assignment : AssignmentCreate.t)
  : AssignmentRead.t :=
  AssignmentRead.Build
    (AssignmentCreate.course_id assignment) (AssignmentCreate.title assignment)
    (AssignmentCreate.due_date assignment) (AssignmentCreate.points assignment)
    (uuid4 env) (utcnow env) (utcnow env).

(** The keywords [update_assignment] hands to [AssignmentRead]. *)
Definition assignment_kwargs (env : Env) (cur : AssignmentRead.t)
    (update : AssignmentUpdate.t) : pydict :=
  <["updated_at" := VDatetime (utcnow env)]>
    (dict_update (AssignmentRead.model_dump cur)
                 (AssignmentUpdate.model_dump_set update)).

(** The payload sets [course_id], and not to the id of a stored course. *)
Definition dangling (cs : gmap UUID CourseRead.t)
    (update : AssignmentUpdate.t) : bool :=
  match AssignmentUpdate.course_id update with
  | Some (Some u) => negb (bool_decide (is_Some (cs !! u)))
  | Some None => true
  | None => false
  end.

Definition address_kwargs (cur : AddressRead.t) (update : AddressUpdate.t)
  : pydict :=
  dict_update (AddressRead.model_dump cur)
              (AddressUpdate.model_dump_set update).

Definition person_kwargs (cur : PersonRead.t) (update : PersonUpdate.t)
  : pydict :=
  dict_update (PersonRead.model_dump cur)
              (PersonUpdate.model_dump_set update).

(** A field after a partial update: kept when the payload leaves it unset,
    the payload's value (which may be null) when the payload sets it.
    A required field is read as [Some] of its value. *)
Definition keeps_or_takes {A} (payload : option (option A))
    (before after : option A) : Prop :=
  match payload with
  | None => after = before
  | Some v => after = v
  end.

(** Every course is stored under its own id, and every stored assignment
    refers to a stored course. *)
Definition store_ok (st : Store) : Prop :=
  (∀ k c, courses st !! k = Some c → CourseRead.id c = k)
  ∧ (∀ aid a, assignments st !! aid = Some a →
       is_Some (courses st !! AssignmentRead.course_id a)).

(** A store the service can be in: the one left by some sequence of
    requests served from the empty stores. *)
Definition reachable (st : Store) : Prop :=
  ∃ rqs, st = serve rqs empty_store.

(** ** A worked store

    One course, one assignment of it, one address and one person, each
    created through its route. *)

Definition ex_course_body : pydict :=
  <["code" := VStr "COMS4153"]>
  (<["title" := VStr "Cloud Computing"]>
  (<["instructor" := VStr "Prof. Ferguson"]>
  (<["semester" := VStr "Fall 2025"]> ∅))).

Definition ex_assignment_body : pydict :=
  <["course_id" := VUuid 7%N]> (<["title" := VStr "HW1"]> ∅).

Definition ex_address : AddressBase.t :=
  AddressBase.Build 1%N "2960 Broadway" "NYC" "NY" "10027" "USA".

Definition ex_person_body : pydict :=
  <["uni" := VStr "abc1234"]> (<["addresses" := VAddrs [ex_address]]> ∅).

Definition ex_requests : list (Env * request) :=
  [ (mkEnv 7%N 100 101 102, POST_courses ex_course_body);
    (mkEnv 8%N 200 201 202, POST_assignments ex_assignment_body);
    (mkEnv 9%N 300 301 302,
     POST_addresses (AddressCreate.model_dump ex_address));
    (mkEnv 2%N 400 401 402, POST_persons ex_person_body) ].

Definition ex_store : Store := serve ex_requests empty_store.

Definition ex_course : CourseRead.t :=
  CourseRead.Build "COMS4153" "Cloud Computing" "Prof. Ferguson" "Fall 2025"
                   7%N 100 100.

Definition ex_assignment : AssignmentRead.t :=
  AssignmentRead.Build 7%N "HW1" None (Some 100) 8%N 200 200.

Definition ex_env : Env := mkEnv 12%N 500 501 502.

(** The fields of a record after a partial update, entity by entity. *)
Definition course_merged (update : CourseUpdate.t) (cur r : CourseRead.t)
  : Prop :=
  keeps_or_takes (CourseUpdate.code update)
    (Some (CourseRead.code cur)) (Some (CourseRead.code r))
  ∧ keeps_or_takes (CourseUpdate.title update)
      (Some (CourseRead.title cur)) (Some (CourseRead.title r))
  ∧ keeps_or_takes (CourseUpdate.instructor update)
      (Some (CourseRead.instructor cur)) (Some (CourseRead.instructor r))
  ∧ keeps_or_takes (CourseUpdate.semester update)
      (Some (CourseRead.semester cur)) (Some (CourseRead.semester r))
  ∧ CourseRead.id r = CourseRead.id cur
  ∧ CourseRead.created_at r = CourseRead.created_at cur.

Definition assignment_merged (update : AssignmentUpdate.t)
    (cur r : AssignmentRead.t) : Prop :=
  keeps_or_takes (AssignmentUpdate.course_id update)
    (Some (AssignmentRead.course_id cur)) (Some (AssignmentRead.course_id r))
  ∧ keeps_or_takes (AssignmentUpdate.title update)
      (Some (AssignmentRead.title cur)) (Some (AssignmentRead.title r))
  ∧ keeps_or_takes (AssignmentUpdate.due_date update)
      (AssignmentRead.due_date cur) (AssignmentRead.due_date r)
  ∧ keeps_or_takes (AssignmentUpdate.points update)
      (AssignmentRead.points cur) (AssignmentRead.points r)
  ∧ AssignmentRead.id r = AssignmentRead.id cur
  ∧ AssignmentRead.created_at r = AssignmentRead.created_at cur.

Definition address_merged (update : AddressUpdate.t) (cur r : AddressRead.t)
  : Prop :=
  keeps_or_takes (AddressUpdate.street update)
    (Some (AddressRead.street cur)) (Some (AddressRead.street r))
  ∧ keeps_or_takes (AddressUpdate.city update)
      (Some (AddressRead.city cur)) (Some (AddressRead.city r))
  ∧ keeps_or_takes (AddressUpdate.state update)
      (Some (AddressRead.state cur)) (Some (AddressRead.state r))
  ∧ keeps_or_takes (AddressUpdate.postal_code update)
      (Some (AddressRead.postal_code cur)) (Some (AddressRead.postal_code r))
  ∧ keeps_or_takes (AddressUpdate.country update)
      (Some (AddressRead.country cur)) (Some (AddressRead.country r))
  ∧ AddressRead.id r = AddressRead.id cur
  ∧ AddressRead.created_at r = AddressRead.created_at cur.

Definition person_merged (update : PersonUpdate.t) (cur r : PersonRead.t)
  : Prop :=
  keeps_or_takes (PersonUpdate.uni update)
    (PersonRead.uni cur) (PersonRead.uni r)
  ∧ keeps_or_takes (PersonUpdate.first_name update)
      (PersonRead.first_name cur) (PersonRead.first_name r)
  ∧ keeps_or_takes (PersonUpdate.last_name update)
      (PersonRead.last_name cur) (PersonRead.last_name r)
  ∧ keeps_or_takes (PersonUpdate.email update)
      (PersonRead.email cur) (PersonRead.email r)
  ∧ keeps_or_takes (PersonUpdate.phone update)
      (PersonRead.phone cur) (PersonRead.phone r)
  ∧ keeps_or_takes (PersonUpdate.birth_date update)
      (PersonRead.birth_date cur) (PersonRead.birth_date r)
  ∧ keeps_or_takes (PersonUpdate.addresses update)
      (Some (PersonRead.addresses cur)) (Some (PersonRead.addresses r))
  ∧ PersonRead.id r = PersonRead.id cur
  ∧ PersonRead.created_at r = PersonRead.created_at cur.

(** What the filters of GET /persons ask of a person: every supplied
    scalar filter equals the person's field ([birth_date] through its
    text), and for a supplied city, or country, some embedded address has
    it. *)
Definition person_matches (q : PersonQuery.t) (p : PersonRead.t) : Prop :=
  (∀ v, PersonQuery.uni q = Some v → PersonRead.uni p = Some v)
  ∧ (∀ v, PersonQuery.first_name q = Some v →
          PersonRead.first_name p = Some v)
  ∧ (∀ v, PersonQuery.last_name q = Some v → PersonRead.last_name p = Some v)
  ∧ (∀ v, PersonQuery.email q = Some v → PersonRead.email p = Some v)
  ∧ (∀ v, PersonQuery.phone q = Some v → PersonRead.phone p = Some v)
  ∧ (∀ v, PersonQuery.birth_date q = Some v →
          str_birth_date (PersonRead.birth_date p) = v)
  ∧ (∀ city, PersonQuery.city q = Some city →
       ∃ addr, addr ∈ PersonRead.addresses p ∧ AddressBase.city addr = city)
  ∧ (∀ country, PersonQuery.country q = Some country →
       ∃ addr, addr ∈ PersonRead.addresses p
               ∧ AddressBase.country addr = country).

(** ** Store transitions

    What a request that returns normally does to the stores: one
    constructor for each mutating handler, with what the handler has
    checked on the way. *)
Inductive transition (st : Store) : Store → Prop :=
  | t_create_address (address : AddressCreate.t) (r : AddressRead.t) :
      addresses st !! AddressBase.id address = None →
      AddressRead.id r = AddressBase.id address →
      transition st
        (set_addresses (<[AddressBase.id address := r]> (addresses st)) st)
  | t_update_address (k : UUID) (cur r : AddressRead.t) :
      addresses st !! k = Some cur →
      AddressRead.id r = AddressRead.id cur →
      transition st (set_addresses (<[k := r]> (addresses st)) st)
  | t_create_person (r : PersonRead.t) :
      transition st (set_persons (<[PersonRead.id r := r]> (persons st)) st)
  | t_update_person (k : UUID) (cur r : PersonRead.t) :
      persons st !! k = Some cur →
      PersonRead.id r = PersonRead.id cur →
      transition st (set_persons (<[k := r]> (persons st)) st)
  | t_create_course (r : CourseRead.t) :
      course_taken (courses st) (CourseRead.code r) (CourseRead.semester r)
      = false →
      transition st (set_courses (<[CourseRead.id r := r]> (courses st)) st)
  | t_update_course (k : UUID) (cur r : CourseRead.t) :
      courses st !! k = Some cur →
      CourseRead.id r = CourseRead.id cur →
      course_clash (courses st) k (VStr (CourseRead.code r))
                   (VStr (CourseRead.semester r)) = false →
      transition st (set_courses (<[k := r]> (courses st)) st)
  | t_delete_course (k : UUID) (c : CourseRead.t) :
      courses st !! k = Some c →
      transition st
        (mkStore (persons st) (addresses st) (delete k (courses st))
                 (cascade k (assignments st)))
  | t_create_assignment (r : AssignmentRead.t) :
      is_Some (courses st !! AssignmentRead.course_id r) →
      valid_points (AssignmentRead.points r) = true →
      transition st
        (set_assignments (<[AssignmentRead.id r := r]> (assignments st)) st)
  | t_update_assignment (k : UUID) (cur r : AssignmentRead.t) :
      assignments st !! k = Some cur →
      AssignmentRead.id r = AssignmentRead.id cur →
      is_Some (courses st !! AssignmentRead.course_id r)
      ∨ AssignmentRead.course_id r = AssignmentRead.course_id cur →
      valid_points (AssignmentRead.points r) = true →
      transition st (set_assignments (<[k := r]> (assignments st)) st)
  | t_delete_assignment (k : UUID) (a : AssignmentRead.t) :
      assignments st !! k = Some a →
      transition st (set_assignments (delete k (assignments st)) st).

(** Every record is stored under its own id. *)
Definition keys_are_ids (st : Store) : Prop :=
  (∀ k p, persons st !! k = Some p → PersonRead.id p = k)
  ∧ (∀ k a, addresses st !! k = Some a → AddressRead.id a = k)
  ∧ (∀ k c, courses st !! k = Some c → CourseRead.id c = k)
  ∧ (∀ k a, assignments st !! k = Some a → AssignmentRead.id a = k).

(** No two stored courses share a (code, semester). *)
Definition courses_unique (st : Store) : Prop :=
  ∀ k1 k2 c1 c2,
    courses st !! k1 = Some c1 → courses st !! k2 = Some c2 →
    CourseRead.code c1 = CourseRead.code c2 →
    CourseRead.semester c1 = CourseRead.semester c2 →
    k1 = k2.

(** Every stored assignment's points is null or within 0..1000. *)
Definition points_valid (st : Store) : Prop :=
  ∀ k a, assignments st !! k = Some a →
         valid_points (AssignmentRead.points a) = true.

(** What the filters of GET /courses, GET /assignments and
    GET /addresses ask of a record. *)
Definition course_matches (q : CourseQuery.t) (c : CourseRead.t) : Prop :=
  (∀ v, CourseQuery.code q = Some v → CourseRead.code c = v)
  ∧ (∀ v, CourseQuery.semester q = Some v → CourseRead.semester c = v)
  ∧ (∀ v, CourseQuery.instructor q = Some v → CourseRead.instructor c = v).

Definition address_matches (q : AddressQuery.t) (a : AddressRead.t) : Prop :=
  (∀ v, AddressQuery.street q = Some v → AddressRead.street a = v)
  ∧ (∀ v, AddressQuery.city q = Some v → AddressRead.city a = v)
  ∧ (∀ v, AddressQuery.state q = Some v → AddressRead.state a = v)
  ∧ (∀ v, AddressQuery.postal_code q = Some v →
          AddressRead.postal_code a = v)
  ∧ (∀ v, AddressQuery.country q = Some v → AddressRead.country a = v).

(** The four stores have the same keys. *)
Definition same_keys (st st' : Store) : Prop :=
  dom (persons st') = dom (persons st)
  ∧ dom (addresses st') = dom (addresses st)
  ∧ dom (courses st') = dom (courses st)
  ∧ dom (assignments st') = dom (assignments st).

(** A field after a partial update whose payload holds no null for it. *)
Definition patch_field {A} (f : option (option A)) (old : A) : A :=
  match f with Some (Some v) => v | _ => old end.

(** A nullable field after a partial update. *)
Definition patch_nullable {A} (f : option (option A)) (old : option A)
  : option A :=
  match f with Some v => v | None => old end.

Definition patched_course (env : Env) (update : CourseUpdate.t)
    (cur : CourseRead.t) : CourseRead.t :=
  CourseRead.Build
    (patch_field (CourseUpdate.code update) (CourseRead.code cur))
    (patch_field (CourseUpdate.title update) (CourseRead.title cur))
    (patch_field (CourseUpdate.instructor update) (CourseRead.instructor cur))
    (patch_field (CourseUpdate.semester update) (CourseRead.semester cur))
    (CourseRead.id cur) (CourseRead.created_at cur) (utcnow env).

Definition patched_assignment (env : Env) (update : AssignmentUpdate.t)
    (cur : AssignmentRead.t) : AssignmentRead.t :=
  AssignmentRead.Build
    (patch_field (AssignmentUpdate.course_id update)
                 (AssignmentRead.course_id cur))
    (patch_field (AssignmentUpdate.title update) (AssignmentRead.title cur))
    (patch_nullable (AssignmentUpdate.due_date update)
                    (AssignmentRead.due_date cur))
    (patch_nullable (AssignmentUpdate.points update)
                    (AssignmentRead.points cur))
    (AssignmentRead.id cur) (AssignmentRead.created_at cur) (utcnow env).

(** ** Two more worked stores

    Two courses of one semester, with a duplicate of the first refused in
    between; and two persons, one born in the year 99. *)

Definition ex_dup_body : pydict :=
  <["code" := VStr "COMS4153"]>
  (<["title" := VStr "Duplicate"]>
  (<["instructor" := VStr "Nobody"]>
  (<["semester" := VStr "Fall 2025"]> ∅))).

Definition ex_course2_body : pydict :=
  <["code" := VStr "COMS4111"]>
  (<["title" := VStr "Databases"]>
  (<["instructor" := VStr "Prof. Ferguson"]>
  (<["semester" := VStr "Fall 2025"]> ∅))).

Definition ex_two_requests : list (Env * request) :=
  [ (mkEnv 7%N 100 101 102, POST_courses ex_course_body);
    (mkEnv 11%N 150 151 152, POST_courses ex_dup_body);
    (mkEnv 10%N 160 161 162, POST_courses ex_course2_body) ].

Definition ex_two_store : Store := serve ex_two_requests empty_store.

Definition ex_course2 : CourseRead.t :=
  CourseRead.Build "COMS4111" "Databases" "Prof. Ferguson" "Fall 2025"
                   10%N 160 160.

Definition ex_address_la : AddressBase.t :=
  AddressBase.Build 3%N "1 Sunset Blvd" "LA" "CA" "90001" "USA".

Definition ex_person_old_body : pydict :=
  <["uni" := VStr "old0099"]>
  (<["birth_date" := VDate (Date 99 1 1)]>
  (<["addresses" := VAddrs [ex_address]]> ∅)).

Definition ex_person_la_body : pydict :=
  <["uni" := VStr "la00001"]> (<["addresses" := VAddrs [ex_address_la]]> ∅).

Definition ex_people_requests : list (Env * request) :=
  [ (mkEnv 21%N 600 601 602, POST_persons ex_person_old_body);
    (mkEnv 22%N 610 611 612, POST_persons ex_person_la_body) ].

Definition ex_people_store : Store := serve ex_people_requests empty_store.

Definition ex_person_old : PersonRead.t :=
  PersonRead.Build (Some "old0099") None None None None (Some (Date 99 1 1))
                   [ex_address] 21%N 601 602.

Definition ex_person_la : PersonRead.t :=
  PersonRead.Build (Some "la00001") None None None None None
                   [ex_address_la] 22%N 611 612.

(** * Properties *)

(** ** Lists, dictionaries and the monad *)

Lemma any_true {A} (f : A → bool) (l : list A) :
  any f l = true ↔ ∃ x, x ∈ l ∧ f x = true.
Proof.
  unfold any. rewrite existsb_exists.
  split; intros (x & Hx & Hf); exists x; split; auto;
    by apply list_elem_of_In.
Qed.

Lemma any_false {A} (f : A → bool) (l : list A) :
  any f l = false ↔ ∀ x, x ∈ l → f x = false.
Proof.
  split.
  - intros Hany x Hx. destruct (f x) eqn:Hf; [|done].
    assert (any f l = true) by (apply any_true; eauto). congruence.
  - intros Hall. destruct (any f l) eqn:Hany; [|done].
    apply any_true in Hany as (x & Hx & Hf). rewrite Hall in Hf; done.
Qed.

Lemma elem_of_values {A} (m : gmap UUID A) (x : A) :
  x ∈ values m ↔ ∃ k, m !! k = Some x.
Proof.
  unfold values. rewrite list_elem_of_fmap. split.
  - intros [[k y] [-> Hin]]. exists k. by apply elem_of_map_to_list.
  - intros [k Hk]. exists (k, x). split; [done|].
    by apply elem_of_map_to_list.
Qed.

Lemma elem_of_filter_by {A B} (q : option B) (P : B → A → bool)
    (l : list A) (x : A) :
  x ∈ filter_by q P l ↔ x ∈ l ∧ ∀ b, q = Some b → P b x = true.
Proof.
  destruct q as [b|]; simpl.
  - rewrite list_elem_of_In, filter_In, <- list_elem_of_In.
    split; [intros [? ?]; split; [done|]; intros ? [= <-]; done|].
    intros [? Hb]; split; auto.
  - split; [intros ?; split; [done|]; intros ? [=]|by intros [? _]].
Qed.

Lemma lookup_dump_set {A} (k k' : string) (inj : A → value)
    (f : option (option A)) (d : pydict) :
  dump_set k inj f d !! k' =
    match f with
    | Some o => if decide (k = k') then Some (dump_opt inj o) else d !! k'
    | None => d !! k'
    end.
Proof. destruct f; simpl; [apply lookup_insert|done]. Qed.

Lemma lookup_dict_update (stored newvals : pydict) (k : string) :
  dict_update stored newvals !! k =
    match newvals !! k with Some v => Some v | None => stored !! k end.
Proof.
  unfold dict_update. rewrite lookup_union.
  by destruct (newvals !! k), (stored !! k).
Qed.

Lemma field_default_inv {A} (parse : value → option A) (d : pydict)
    (k : string) (dflt a : A) :
  field_default parse d k dflt = Some a →
  (d !! k = None ∧ a = dflt) ∨ (∃ v, d !! k = Some v ∧ parse v = Some a).
Proof.
  unfold field_default. destruct (d !! k) as [v|]; [|intros [= <-]; by left].
  intros Hp. right. eauto.
Qed.

Lemma field_str_inv (d : pydict) (k : string) (s : string) :
  field_str d k = Some s ↔ d !! k = Some (VStr s).
Proof.
  unfold field_str. destruct (d !! k) as [[]|]; naive_solver.
Qed.

Lemma field_uuid_inv (d : pydict) (k : string) (u : UUID) :
  field_uuid d k = Some u ↔ d !! k = Some (VUuid u).
Proof.
  unfold field_uuid. destruct (d !! k) as [[]|]; naive_solver.
Qed.

Lemma field_default_Some {A} (parse : value → option A) (d : pydict)
    (k : string) (dflt : A) (v : value) :
  d !! k = Some v → field_default parse d k dflt = parse v.
Proof. unfold field_default. by intros ->. Qed.

(** Storing under a key and reading the key back. *)
Lemma setitem_getitem {A} (d : Store → gmap UUID A)
    (set_d : gmap UUID A → Store → Store) (k : UUID) (a : A) (st : Store) :
  (∀ m s, d (set_d m s) = m) →
  (setitem d set_d k a;; getitem d k) st
  = (set_d (<[k := a]> (d st)) st, inr a).
Proof.
  intros Hd. unfold bind, setitem, modify, getitem.
  by rewrite Hd, lookup_insert_eq.
Qed.

(** Deleting a duplicate-free list of present keys, one by one. *)
Lemma for_each_delitem (l : list UUID) (st : Store) :
  NoDup l →
  (∀ k, k ∈ l → is_Some (assignments st !! k)) →
  for_each l (delitem assignments set_assignments) st
  = (set_assignments (foldl (λ m k, delete k m) (assignments st) l) st,
     inr tt).
Proof.
  revert st. induction l as [|x l IH]; intros st Hnd Hin; simpl.
  - by destruct st.
  - apply NoDup_cons in Hnd as [Hx Hnd].
    unfold bind at 1. unfold delitem at 1.
    destruct (Hin x) as [a Ha]; [by left|]. rewrite Ha.
    rewrite IH; [by destruct st|done|].
    intros k Hk. simpl. rewrite lookup_delete_ne; [|by intros ->].
    apply Hin. by right.
Qed.

Lemma lookup_foldl_delete {A} (l : list UUID) (m : gmap UUID A) (k : UUID) :
  foldl (λ m k, delete k m) m l !! k
  = if decide (k ∈ l) then None else m !! k.
Proof.
  revert m. induction l as [|x l IH]; intros m; simpl.
  - destruct (decide (k ∈ [])) as [Hk|_]; [by apply elem_of_nil in Hk|done].
  - rewrite IH.
    destruct (decide (k ∈ l)) as [Hl|Hl];
      destruct (decide (k ∈ x :: l)) as [Hxl|Hxl]; try done.
    + exfalso. apply Hxl. by right.
    + apply elem_of_cons in Hxl as [->|?]; [|done].
      apply lookup_delete_eq.
    + apply lookup_delete_ne. intros ->. apply Hxl. by left.
Qed.

(** ** What each handler does *)

Lemma delete_course_run (st : Store) (course_id : UUID) :
  delete_course course_id st =
    match courses st !! course_id with
    | None => (st, inl (NotFound "Course not found"))
    | Some _ =>
        (mkStore (persons st) (addresses st) (delete course_id (courses st))
                 (cascade course_id (assignments st)), inr tt)
    end.
Proof.
  unfold delete_course, bind at 1, gets at 1.
  destruct (courses st !! course_id) as [c|] eqn:Hc;
    [rewrite bool_decide_eq_false_2 by done|by rewrite bool_decide_eq_true_2].
  unfold bind at 1, gets at 1. unfold bind at 1.
  set (l := (filter _ (map_to_list (assignments st))).*1).
  assert (Hl : ∀ k, k ∈ l ↔ ∃ a, assignments st !! k = Some a
                            ∧ AssignmentRead.course_id a = course_id).
  { intros k. unfold l. rewrite list_elem_of_fmap. split.
    - intros ([k' a] & -> & Hin). apply list_elem_of_filter in Hin as [HP Hin].
      apply elem_of_map_to_list in Hin. eauto.
    - intros (a & Ha & Hcid). exists (k, a). split; [done|].
      apply list_elem_of_filter. split; [done|]. by apply elem_of_map_to_list. }
  rewrite for_each_delitem.
  - unfold delitem. simpl. rewrite Hc. f_equal. unfold set_courses; simpl.
    f_equal. apply map_eq. intros k. rewrite lookup_foldl_delete.
    unfold cascade. destruct (decide (k ∈ l)) as [Hk|Hk].
    + apply Hl in Hk as (a & Ha & Hcid). symmetry.
      apply map_lookup_filter_None. right. intros a' Ha'. simpl.
      intros Hne. apply Hne. congruence.
    + destruct (assignments st !! k) as [a|] eqn:Ha.
      * symmetry. apply map_lookup_filter_Some. split; [done|]. simpl.
        intros Hcid. apply Hk, Hl. eauto.
      * symmetry. apply map_lookup_filter_None. by left.
  - unfold l. apply (sublist_NoDup _ ((map_to_list (assignments st)).*1)).
    + apply NoDup_fst_map_to_list.
    + apply fmap_sublist, sublist_filter.
  - intros k Hk. apply Hl in Hk as (a & Ha & _). eauto.
Qed.

Lemma lookup_cascade (course_id aid : UUID)
    (asg : gmap UUID AssignmentRead.t) :
  cascade course_id asg !! aid =
    match asg !! aid with
    | Some a => if decide (AssignmentRead.course_id a = course_id)
                then None else Some a
    | None => None
    end.
Proof.
  unfold cascade. destruct (asg !! aid) as [a|] eqn:Ha.
  - case_decide.
    + apply map_lookup_filter_None. right. intros a' Ha'. simpl.
      intros Hne. apply Hne. congruence.
    + apply map_lookup_filter_Some. done.
  - apply map_lookup_filter_None. by left.
Qed.

Lemma get_course_run (st : Store) (course_id : UUID) :
  get_course course_id st =
    match courses st !! course_id with
    | None => (st, inl (NotFound "Course not found"))
    | Some c => (st, inr c)
    end.
Proof.
  unfold get_course, bind, gets, getitem, raise.
  destruct (courses st !! course_id) eqn:Hc;
    [rewrite bool_decide_eq_false_2 by done; by rewrite Hc
    |by rewrite bool_decide_eq_true_2].
Qed.

Lemma get_assignment_run (st : Store) (assignment_id : UUID) :
  get_assignment assignment_id st =
    match assignments st !! assignment_id with
    | None => (st, inl (NotFound "Assignment not found"))
    | Some a => (st, inr a)
    end.
Proof.
  unfold get_assignment, bind, gets, getitem, raise.
  destruct (assignments st !! assignment_id) eqn:Hc;
    [rewrite bool_decide_eq_false_2 by done; by rewrite Hc
    |by rewrite bool_decide_eq_true_2].
Qed.

Lemma delete_assignment_run (st : Store) (assignment_id : UUID) :
  delete_assignment assignment_id st =
    match assignments st !! assignment_id with
    | None => (st, inl (NotFound "Assignment not found"))
    | Some _ =>
        (set_assignments (delete assignment_id (assignments st)) st, inr tt)
    end.
Proof.
  unfold delete_assignment, bind, gets, delitem, raise.
  destruct (assignments st !! assignment_id) eqn:Hc;
    [rewrite bool_decide_eq_false_2 by done; by rewrite Hc
    |by rewrite bool_decide_eq_true_2].
Qed.

(** *** Courses *)

Lemma course_taken_true cs code semester :
  course_taken cs code semester = true ↔
  ∃ k c, cs !! k = Some c ∧ CourseRead.code c = code
         ∧ CourseRead.semester c = semester.
Proof.
  unfold course_taken. rewrite any_true. split.
  - intros (c & Hc & Hp). apply elem_of_values in Hc as [k Hk].
    apply andb_true_iff in Hp as [H1 H2].
    apply bool_decide_eq_true in H1, H2. eauto.
  - intros (k & c & Hk & H1 & H2). exists c. split.
    + apply elem_of_values. eauto.
    + apply andb_true_iff. by rewrite !bool_decide_eq_true.
Qed.

Lemma create_course_run (env : Env) (course : CourseCreate.t) (st : Store) :
  create_course env course st =
    if course_taken (courses st) (CourseCreate.code course)
                    (CourseCreate.semester course)
    then (st, inl Conflict)
    else (set_courses (<[uuid4 env := new_course env course]> (courses st)) st,
          inr (new_course env course)).
Proof.
  unfold create_course, course_taken, bind at 1, gets at 1.
  destruct (any _ _); [done|].
  assert (CourseRead.validate env
            (<["updated_at" :=
                 <["created_at" := VDatetime (utcnow env)]>
                   (CourseCreate.model_dump course) !!! "created_at"]>
               (<["created_at" := VDatetime (utcnow env)]>
                  (CourseCreate.model_dump course)))
          = Some (new_course env course)) as ->.
  { destruct course, env. vm_compute. reflexivity. }
  reflexivity.
Qed.

Lemma update_course_run (env : Env) (course_id : UUID)
    (update : CourseUpdate.t) (st : Store) :
  update_course env course_id update st =
    match courses st !! course_id with
    | None => (st, inl (NotFound "Course not found"))
    | Some cur =>
        if course_clash (courses st) course_id
             (patched VStr (CourseUpdate.code update)
                      (VStr (CourseRead.code cur)))
             (patched VStr (CourseUpdate.semester update)
                      (VStr (CourseRead.semester cur)))
        then (st, inl Conflict)
        else match CourseRead.validate env (course_kwargs env cur update) with
             | None => (st, inl ValidationError)
             | Some r =>
                 (set_courses (<[course_id := r]> (courses st)) st, inr r)
             end
    end.
Proof.
  unfold update_course, bind at 1, gets at 1.
  destruct (courses st !! course_id) as [cur|]; [|done].
  assert (dict_get (CourseUpdate.model_dump_set update) "code"
            (CourseRead.model_dump cur !!! "code")
          = patched VStr (CourseUpdate.code update)
                    (VStr (CourseRead.code cur))) as ->.
  { destruct cur, update as [[] [] [] []]; vm_compute; reflexivity. }
  assert (dict_get (CourseUpdate.model_dump_set update) "semester"
            (CourseRead.model_dump cur !!! "semester")
          = patched VStr (CourseUpdate.semester update)
                    (VStr (CourseRead.semester cur))) as ->.
  { destruct cur, update as [[] [] [] []]; vm_compute; reflexivity. }
  fold (course_clash (courses st) course_id
          (patched VStr (CourseUpdate.code update)
                   (VStr (CourseRead.code cur)))
          (patched VStr (CourseUpdate.semester update)
                   (VStr (CourseRead.semester cur)))).
  destruct (course_clash _ _ _ _); [done|].
  fold (course_kwargs env cur update).
  unfold bind at 1.
  destruct (CourseRead.validate env (course_kwargs env cur update)) as [r|];
    [|done].
  simpl. by rewrite setitem_getitem.
Qed.

Lemma course_kwargs_lookup (env : Env) (cur : CourseRead.t)
    (update : CourseUpdate.t) :
  let d := course_kwargs env cur update in
  d !! "code" = Some (patched VStr (CourseUpdate.code update)
                              (VStr (CourseRead.code cur)))
  ∧ d !! "title" = Some (patched VStr (CourseUpdate.title update)
                                 (VStr (CourseRead.title cur)))
  ∧ d !! "instructor" = Some (patched VStr (CourseUpdate.instructor update)
                                      (VStr (CourseRead.instructor cur)))
  ∧ d !! "semester" = Some (patched VStr (CourseUpdate.semester update)
                                    (VStr (CourseRead.semester cur)))
  ∧ d !! "id" = Some (VUuid (CourseRead.id cur))
  ∧ d !! "created_at" = Some (VDatetime (CourseRead.created_at cur))
  ∧ d !! "updated_at" = Some (VDatetime (utcnow env)).
Proof.
  destruct cur, env, update as [[] [] [] []];
    vm_compute; repeat split; reflexivity.
Qed.

Lemma CourseRead_validate_inv (env : Env) (d : pydict) (r : CourseRead.t) :
  CourseRead.validate env d = Some r →
  d !! "code" = Some (VStr (CourseRead.code r))
  ∧ d !! "title" = Some (VStr (CourseRead.title r))
  ∧ d !! "instructor" = Some (VStr (CourseRead.instructor r))
  ∧ d !! "semester" = Some (VStr (CourseRead.semester r))
  ∧ field_default is_uuid d "id" (uuid4 env) = Some (CourseRead.id r)
  ∧ field_default is_datetime d "created_at" (utcnow_created env)
    = Some (CourseRead.created_at r)
  ∧ field_default is_datetime d "updated_at" (utcnow_updated env)
    = Some (CourseRead.updated_at r).
Proof.
  unfold CourseRead.validate. intros Hv.
  destruct (field_str d "code") as [c|] eqn:H1; [|done].
  destruct (field_str d "title") as [t|] eqn:H2; [|done].
  destruct (field_str d "instructor") as [i|] eqn:H3; [|done].
  destruct (field_str d "semester") as [s|] eqn:H4; [|done].
  destruct (field_default is_uuid d "id" (uuid4 env)) as [u|]; [|done].
  destruct (field_default is_datetime d "created_at" _) as [ca|]; [|done].
  destruct (field_default is_datetime d "updated_at" _) as [ua|]; [|done].
  simpl in Hv. injection Hv as <-. simpl.
  apply field_str_inv in H1, H2, H3, H4. done.
Qed.

(** What a successful course update returns and leaves in the store. *)
Lemma update_course_inr (env : Env) (course_id : UUID)
    (update : CourseUpdate.t) (st st' : Store) (r : CourseRead.t) :
  update_course env course_id update st = (st', inr r) →
  ∃ cur,
    courses st !! course_id = Some cur
    ∧ st' = set_courses (<[course_id := r]> (courses st)) st
    ∧ VStr (CourseRead.code r)
      = patched VStr (CourseUpdate.code update) (VStr (CourseRead.code cur))
    ∧ VStr (CourseRead.title r)
      = patched VStr (CourseUpdate.title update) (VStr (CourseRead.title cur))
    ∧ VStr (CourseRead.instructor r)
      = patched VStr (CourseUpdate.instructor update)
                (VStr (CourseRead.instructor cur))
    ∧ VStr (CourseRead.semester r)
      = patched VStr (CourseUpdate.semester update)
                (VStr (CourseRead.semester cur))
    ∧ CourseRead.id r = CourseRead.id cur
    ∧ CourseRead.created_at r = CourseRead.created_at cur
    ∧ CourseRead.updated_at r = utcnow env.
Proof.
  rewrite update_course_run.
  destruct (courses st !! course_id) as [cur|]; [|done].
  destruct (course_clash _ _ _ _); [done|].
  destruct (CourseRead.validate _ _) as [r'|] eqn:Hv; [|done].
  intros [= <- <-]. exists cur.
  apply CourseRead_validate_inv in Hv
    as (H1 & H2 & H3 & H4 & H5 & H6 & H7).
  destruct (course_kwargs_lookup env cur update)
    as (L1 & L2 & L3 & L4 & L5 & L6 & L7).
  rewrite (field_default_Some _ _ _ _ _ L5) in H5.
  rewrite (field_default_Some _ _ _ _ _ L6) in H6.
  rewrite (field_default_Some _ _ _ _ _ L7) in H7.
  simpl in H5, H6, H7. repeat split; congruence.
Qed.

(** *** Assignments *)

Lemma create_assignment_run (env : Env) (assignment : AssignmentCreate.t)
    (st : Store) :
  create_assignment env assignment st =
    match courses st !! AssignmentCreate.course_id assignment with
    | None => (st, inl BadReference)
    | Some _ =>
        if valid_points (AssignmentCreate.points assignment)
        then (set_assignments
                (<[uuid4 env := new_assignment env assignment]>
                   (assignments st)) st,
              inr (new_assignment env assignment))
        else (st, inl ValidationError)
    end.
Proof.
  unfold create_assignment, bind at 1, gets at 1.
  destruct (courses st !! AssignmentCreate.course_id assignment) as [c|];
    [|done].
  rewrite bool_decide_eq_true_2 by eauto. simpl negb. cbv iota.
  assert (AssignmentRead.validate env
            (<["updated_at" :=
                 <["created_at" := VDatetime (utcnow env)]>
                   (AssignmentCreate.model_dump assignment) !!! "created_at"]>
               (<["created_at" := VDatetime (utcnow env)]>
                  (AssignmentCreate.model_dump assignment)))
          = if valid_points (AssignmentCreate.points assignment)
            then Some (new_assignment env assignment) else None) as ->.
  { set (data := <["updated_at" := _]> _).
    assert (data !! "course_id"
              = Some (VUuid (AssignmentCreate.course_id assignment))
            ∧ data !! "title" = Some (VStr (AssignmentCreate.title assignment))
            ∧ data !! "due_date"
              = Some (dump_opt VDate (AssignmentCreate.due_date assignment))
            ∧ data !! "points"
              = Some (dump_opt VInt (AssignmentCreate.points assignment))
            ∧ data !! "id" = None
            ∧ data !! "created_at" = Some (VDatetime (utcnow env))
            ∧ data !! "updated_at" = Some (VDatetime (utcnow env)))
      as (L1 & L2 & L3 & L4 & L5 & L6 & L7).
    { subst data. destruct env, assignment as [? ? [] []];
        vm_compute; repeat split; reflexivity. }
    unfold AssignmentRead.validate, field_uuid, field_str, field_default.
    rewrite L1, L2, L3, L4, L5, L6, L7.
    destruct assignment as [cid t [d|] [z|]]; simpl; try reflexivity;
      destruct (bool_decide (0 ≤ z ∧ z ≤ 1000)); reflexivity. }
  destruct (valid_points _); reflexivity.
Qed.

Lemma update_assignment_run (env : Env) (assignment_id : UUID)
    (update : AssignmentUpdate.t) (st : Store) :
  update_assignment env assignment_id update st =
    match assignments st !! assignment_id with
    | None => (st, inl (NotFound "Assignment not found"))
    | Some cur =>
        if dangling (courses st) update
        then (st, inl BadReference)
        else match AssignmentRead.validate env
                     (assignment_kwargs env cur update) with
             | None => (st, inl ValidationError)
             | Some r =>
                 (set_assignments (<[assignment_id := r]> (assignments st)) st,
                  inr r)
             end
    end.
Proof.
  unfold update_assignment, bind at 1, gets at 1.
  destruct (assignments st !! assignment_id) as [cur|]; [|done].
  unfold bind at 1, gets at 1.
  assert (bool_decide
            (is_Some (AssignmentUpdate.model_dump_set update !! "course_id"))
          && negb (key_in (AssignmentUpdate.model_dump_set update
                             !!! "course_id") (courses st))
          = dangling (courses st) update) as ->.
  { unfold dangling.
    destruct update as [[[u|]|] [] [] []]; cbn -[bool_decide];
      first [ rewrite bool_decide_eq_true_2 by (vm_compute; eauto)
            | rewrite bool_decide_eq_false_2
                by (vm_compute; intros [? [=]]) ];
      try reflexivity;
      change (_ !!! "course_id") with (VUuid u); reflexivity. }
  destruct (dangling _ _); [done|].
  fold (assignment_kwargs env cur update).
  unfold bind at 1.
  destruct (AssignmentRead.validate env (assignment_kwargs env cur update))
    as [r|]; [|done].
  simpl. by rewrite setitem_getitem.
Qed.

Lemma opt_date_inv (v : value) (o : option date) :
  opt_date v = Some o → v = dump_opt VDate o.
Proof. destruct v; simpl; intros [= <-]; done. Qed.

Lemma opt_str_inv (v : value) (o : option string) :
  opt_str v = Some o → v = dump_opt VStr o.
Proof. destruct v; simpl; intros [= <-]; done. Qed.

Lemma opt_points_inv (v : value) (o : option Z) :
  opt_points v = Some o → v = dump_opt VInt o ∧ valid_points o = true.
Proof.
  destruct v; simpl; try done.
  - intros [= <-]; done.
  - destruct (bool_decide (0 ≤ z ∧ z ≤ 1000)) eqn:Hz; [|done].
    intros [= <-]. done.
Qed.

Lemma assignment_kwargs_lookup (env : Env) (cur : AssignmentRead.t)
    (update : AssignmentUpdate.t) :
  let d := assignment_kwargs env cur update in
  d !! "course_id"
    = Some (patched VUuid (AssignmentUpdate.course_id update)
                    (VUuid (AssignmentRead.course_id cur)))
  ∧ d !! "title"
    = Some (patched VStr (AssignmentUpdate.title update)
                    (VStr (AssignmentRead.title cur)))
  ∧ d !! "due_date"
    = Some (patched VDate (AssignmentUpdate.due_date update)
                    (dump_opt VDate (AssignmentRead.due_date cur)))
  ∧ d !! "points"
    = Some (patched VInt (AssignmentUpdate.points update)
                    (dump_opt VInt (AssignmentRead.points cur)))
  ∧ d !! "id" = Some (VUuid (AssignmentRead.id cur))
  ∧ d !! "created_at" = Some (VDatetime (AssignmentRead.created_at cur))
  ∧ d !! "updated_at" = Some (VDatetime (utcnow env)).
Proof.
  destruct cur, env, update as [[] [] [] []];
    vm_compute; repeat split; reflexivity.
Qed.

Lemma AssignmentRead_validate_inv (env : Env) (d : pydict)
    (r : AssignmentRead.t) :
  AssignmentRead.validate env d = Some r →
  d !! "course_id" = Some (VUuid (AssignmentRead.course_id r))
  ∧ d !! "title" = Some (VStr (AssignmentRead.title r))
  ∧ field_default opt_date d "due_date" None
    = Some (AssignmentRead.due_date r)
  ∧ field_default opt_points d "points" (Some 100)
    = Some (AssignmentRead.points r)
  ∧ field_default is_uuid d "id" (uuid4 env) = Some (AssignmentRead.id r)
  ∧ field_default is_datetime d "created_at" (utcnow_created env)
    = Some (AssignmentRead.created_at r)
  ∧ field_default is_datetime d "updated_at" (utcnow_updated env)
    = Some (AssignmentRead.updated_at r).
Proof.
  unfold AssignmentRead.validate. intros Hv.
  destruct (field_uuid d "course_id") as [c|] eqn:H1; [|done].
  destruct (field_str d "title") as [t|] eqn:H2; [|done].
  destruct (field_default opt_date d "due_date" None) as [dd|]; [|done].
  destruct (field_default opt_points d "points" _) as [p|]; [|done].
  destruct (field_default is_uuid d "id" (uuid4 env)) as [u|]; [|done].
  destruct (field_default is_datetime d "created_at" _) as [ca|]; [|done].
  destruct (field_default is_datetime d "updated_at" _) as [ua|]; [|done].
  simpl in Hv. injection Hv as <-. simpl.
  apply field_uuid_inv in H1. apply field_str_inv in H2. done.
Qed.

(** What a successful assignment update returns and leaves in the store. *)
Lemma update_assignment_inr (env : Env) (assignment_id : UUID)
    (update : AssignmentUpdate.t) (st st' : Store) (r : AssignmentRead.t) :
  update_assignment env assignment_id update st = (st', inr r) →
  ∃ cur,
    assignments st !! assignment_id = Some cur
    ∧ st' = set_assignments (<[assignment_id := r]> (assignments st)) st
    ∧ dangling (courses st) update = false
    ∧ VUuid (AssignmentRead.course_id r)
      = patched VUuid (AssignmentUpdate.course_id update)
                (VUuid (AssignmentRead.course_id cur))
    ∧ VStr (AssignmentRead.title r)
      = patched VStr (AssignmentUpdate.title update)
                (VStr (AssignmentRead.title cur))
    ∧ dump_opt VDate (AssignmentRead.due_date r)
      = patched VDate (AssignmentUpdate.due_date update)
                (dump_opt VDate (AssignmentRead.due_date cur))
    ∧ dump_opt VInt (AssignmentRead.points r)
      = patched VInt (AssignmentUpdate.points update)
                (dump_opt VInt (AssignmentRead.points cur))
    ∧ AssignmentRead.id r = AssignmentRead.id cur
    ∧ AssignmentRead.created_at r = AssignmentRead.created_at cur
    ∧ AssignmentRead.updated_at r = utcnow env.
Proof.
  rewrite update_assignment_run.
  destruct (assignments st !! assignment_id) as [cur|]; [|done].
  destruct (dangling _ _) eqn:Hd; [done|].
  destruct (AssignmentRead.validate _ _) as [r'|] eqn:Hv; [|done].
  intros [= <- <-]. exists cur.
  apply AssignmentRead_validate_inv in Hv
    as (H1 & H2 & H3 & H4 & H5 & H6 & H7).
  destruct (assignment_kwargs_lookup env cur update)
    as (L1 & L2 & L3 & L4 & L5 & L6 & L7).
  rewrite (field_default_Some _ _ _ _ _ L3) in H3.
  rewrite (field_default_Some _ _ _ _ _ L4) in H4.
  rewrite (field_default_Some _ _ _ _ _ L5) in H5.
  rewrite (field_default_Some _ _ _ _ _ L6) in H6.
  rewrite (field_default_Some _ _ _ _ _ L7) in H7.
  apply opt_date_inv in H3. apply opt_points_inv in H4 as [H4 _].
  simpl in H5, H6, H7. repeat split; congruence.
Qed.

(** *** Addresses and persons *)

Lemma create_address_run (env : Env) (address : AddressCreate.t)
    (st : Store) :
  create_address env address st =
    match addresses st !! AddressBase.id address with
    | Some _ => (st, inl DuplicateId)
    | None =>
        let r := AddressRead.Build
                   (AddressBase.id address) (AddressBase.street address)
                   (AddressBase.city address) (AddressBase.state address)
                   (AddressBase.postal_code address)
                   (AddressBase.country address)
                   (utcnow_created env) (utcnow_updated env) in
        (set_addresses (<[AddressBase.id address := r]> (addresses st)) st,
         inr r)
    end.
Proof.
  unfold create_address, bind at 1, gets at 1.
  destruct (addresses st !! AddressBase.id address) as [a|] eqn:Ha.
  - by rewrite bool_decide_eq_true_2 by eauto.
  - rewrite bool_decide_eq_false_2 by (by intros [? ?]).
    assert (AddressRead.validate env (AddressCreate.model_dump address)
            = Some (AddressRead.Build
                   (AddressBase.id address) (AddressBase.street address)
                   (AddressBase.city address) (AddressBase.state address)
                   (AddressBase.postal_code address)
                   (AddressBase.country address)
                   (utcnow_created env) (utcnow_updated env))) as ->.
    { destruct env, address. vm_compute. reflexivity. }
    unfold bind at 1. simpl construct. unfold ret at 1.
    by rewrite setitem_getitem.
Qed.

Lemma update_address_run (env : Env) (address_id : UUID)
    (update : AddressUpdate.t) (st : Store) :
  update_address env address_id update st =
    match addresses st !! address_id with
    | None => (st, inl (NotFound "Address not found"))
    | Some cur =>
        match AddressRead.validate env (address_kwargs cur update) with
        | None => (st, inl ValidationError)
        | Some r =>
            (set_addresses (<[address_id := r]> (addresses st)) st, inr r)
        end
    end.
Proof.
  unfold update_address, bind at 1, gets at 1.
  destruct (addresses st !! address_id) as [cur|]; [|done].
  fold (address_kwargs cur update). unfold bind at 1.
  destruct (AddressRead.validate env (address_kwargs cur update)) as [r|];
    [|done].
  simpl. by rewrite setitem_getitem.
Qed.

Lemma create_person_run (env : Env) (person : PersonCreate.t) (st : Store) :
  create_person env person st =
    let r := PersonRead.Build
               (PersonCreate.uni person) (PersonCreate.first_name person)
               (PersonCreate.last_name person) (PersonCreate.email person)
               (PersonCreate.phone person) (PersonCreate.birth_date person)
               (PersonCreate.addresses person)
               (uuid4 env) (utcnow_created env) (utcnow_updated env) in
    (set_persons (<[uuid4 env := r]> (persons st)) st, inr r).
Proof.
  unfold create_person.
  assert (PersonRead.validate env (PersonCreate.model_dump person)
          = Some (PersonRead.Build
               (PersonCreate.uni person) (PersonCreate.first_name person)
               (PersonCreate.last_name person) (PersonCreate.email person)
               (PersonCreate.phone person) (PersonCreate.birth_date person)
               (PersonCreate.addresses person)
               (uuid4 env) (utcnow_created env) (utcnow_updated env))) as ->.
  { destruct env, person as [[] [] [] [] [] [] ?]; vm_compute; reflexivity. }
  reflexivity.
Qed.

Lemma update_person_run (env : Env) (person_id : UUID)
    (update : PersonUpdate.t) (st : Store) :
  update_person env person_id update st =
    match persons st !! person_id with
    | None => (st, inl (NotFound "Person not found"))
    | Some cur =>
        match PersonRead.validate env (person_kwargs cur update) with
        | None => (st, inl ValidationError)
        | Some r =>
            (set_persons (<[person_id := r]> (persons st)) st, inr r)
        end
    end.
Proof.
  unfold update_person, bind at 1, gets at 1.
  destruct (persons st !! person_id) as [cur|]; [|done].
  fold (person_kwargs cur update). unfold bind at 1.
  destruct (PersonRead.validate env (person_kwargs cur update)) as [r|];
    [|done].
  simpl. by rewrite setitem_getitem.
Qed.

Lemma address_kwargs_lookup (cur : AddressRead.t) (update : AddressUpdate.t) :
  let d := address_kwargs cur update in
  d !! "id" = Some (VUuid (AddressRead.id cur))
  ∧ d !! "street" = Some (patched VStr (AddressUpdate.street update)
                                  (VStr (AddressRead.street cur)))
  ∧ d !! "city" = Some (patched VStr (AddressUpdate.city update)
                                (VStr (AddressRead.city cur)))
  ∧ d !! "state" = Some (patched VStr (AddressUpdate.state update)
                                 (VStr (AddressRead.state cur)))
  ∧ d !! "postal_code"
    = Some (patched VStr (AddressUpdate.postal_code update)
                    (VStr (AddressRead.postal_code cur)))
  ∧ d !! "country" = Some (patched VStr (AddressUpdate.country update)
                                   (VStr (AddressRead.country cur)))
  ∧ d !! "created_at" = Some (VDatetime (AddressRead.created_at cur))
  ∧ d !! "updated_at" = Some (VDatetime (AddressRead.updated_at cur)).
Proof.
  destruct cur, update as [[] [] [] [] []];
    vm_compute; repeat split; reflexivity.
Qed.

Lemma AddressRead_validate_inv (env : Env) (d : pydict) (r : AddressRead.t) :
  AddressRead.validate env d = Some r →
  d !! "id" = Some (VUuid (AddressRead.id r))
  ∧ d !! "street" = Some (VStr (AddressRead.street r))
  ∧ d !! "city" = Some (VStr (AddressRead.city r))
  ∧ d !! "state" = Some (VStr (AddressRead.state r))
  ∧ d !! "postal_code" = Some (VStr (AddressRead.postal_code r))
  ∧ d !! "country" = Some (VStr (AddressRead.country r))
  ∧ field_default is_datetime d "created_at" (utcnow_created env)
    = Some (AddressRead.created_at r)
  ∧ field_default is_datetime d "updated_at" (utcnow_updated env)
    = Some (AddressRead.updated_at r).
Proof.
  unfold AddressRead.validate. intros Hv.
  destruct (field_uuid d "id") as [u|] eqn:H1; [|done].
  destruct (field_str d "street") as [s|] eqn:H2; [|done].
  destruct (field_str d "city") as [c|] eqn:H3; [|done].
  destruct (field_str d "state") as [st|] eqn:H4; [|done].
  destruct (field_str d "postal_code") as [p|] eqn:H5; [|done].
  destruct (field_str d "country") as [co|] eqn:H6; [|done].
  destruct (field_default is_datetime d "created_at" _) as [ca|]; [|done].
  destruct (field_default is_datetime d "updated_at" _) as [ua|]; [|done].
  simpl in Hv. injection Hv as <-. simpl.
  apply field_uuid_inv in H1. apply field_str_inv in H2, H3, H4, H5, H6.
  done.
Qed.

(** What a successful address update returns and leaves in the store. *)
Lemma update_address_inr (env : Env) (address_id : UUID)
    (update : AddressUpdate.t) (st st' : Store) (r : AddressRead.t) :
  update_address env address_id update st = (st', inr r) →
  ∃ cur,
    addresses st !! address_id = Some cur
    ∧ st' = set_addresses (<[address_id := r]> (addresses st)) st
    ∧ VStr (AddressRead.street r)
      = patched VStr (AddressUpdate.street update)
                (VStr (AddressRead.street cur))
    ∧ VStr (AddressRead.city r)
      = patched VStr (AddressUpdate.city update) (VStr (AddressRead.city cur))
    ∧ VStr (AddressRead.state r)
      = patched VStr (AddressUpdate.state update)
                (VStr (AddressRead.state cur))
    ∧ VStr (AddressRead.postal_code r)
      = patched VStr (AddressUpdate.postal_code update)
                (VStr (AddressRead.postal_code cur))
    ∧ VStr (AddressRead.country r)
      = patched VStr (AddressUpdate.country update)
                (VStr (AddressRead.country cur))
    ∧ AddressRead.id r = AddressRead.id cur
    ∧ AddressRead.created_at r = AddressRead.created_at cur
    ∧ AddressRead.updated_at r = AddressRead.updated_at cur.
Proof.
  rewrite update_address_run.
  destruct (addresses st !! address_id) as [cur|]; [|done].
  destruct (AddressRead.validate _ _) as [r'|] eqn:Hv; [|done].
  intros [= <- <-]. exists cur.
  apply AddressRead_validate_inv in Hv
    as (H1 & H2 & H3 & H4 & H5 & H6 & H7 & H8).
  destruct (address_kwargs_lookup cur update)
    as (L1 & L2 & L3 & L4 & L5 & L6 & L7 & L8).
  rewrite (field_default_Some _ _ _ _ _ L7) in H7.
  rewrite (field_default_Some _ _ _ _ _ L8) in H8.
  simpl in H7, H8. repeat split; congruence.
Qed.

Lemma person_kwargs_lookup (cur : PersonRead.t) (update : PersonUpdate.t) :
  let d := person_kwargs cur update in
  d !! "uni" = Some (patched VStr (PersonUpdate.uni update)
                             (dump_opt VStr (PersonRead.uni cur)))
  ∧ d !! "first_name"
    = Some (patched VStr (PersonUpdate.first_name update)
                    (dump_opt VStr (PersonRead.first_name cur)))
  ∧ d !! "last_name"
    = Some (patched VStr (PersonUpdate.last_name update)
                    (dump_opt VStr (PersonRead.last_name cur)))
  ∧ d !! "email" = Some (patched VStr (PersonUpdate.email update)
                                 (dump_opt VStr (PersonRead.email cur)))
  ∧ d !! "phone" = Some (patched VStr (PersonUpdate.phone update)
                                 (dump_opt VStr (PersonRead.phone cur)))
  ∧ d !! "birth_date"
    = Some (patched VDate (PersonUpdate.birth_date update)
                    (dump_opt VDate (PersonRead.birth_date cur)))
  ∧ d !! "addresses"
    = Some (patched VAddrs (PersonUpdate.addresses update)
                    (VAddrs (PersonRead.addresses cur)))
  ∧ d !! "id" = Some (VUuid (PersonRead.id cur))
  ∧ d !! "created_at" = Some (VDatetime (PersonRead.created_at cur))
  ∧ d !! "updated_at" = Some (VDatetime (PersonRead.updated_at cur)).
Proof.
  destruct cur, update as [[] [] [] [] [] [] []];
    vm_compute; repeat split; reflexivity.
Qed.

Lemma PersonRead_validate_inv (env : Env) (d : pydict) (r : PersonRead.t) :
  PersonRead.validate env d = Some r →
  field_default opt_str d "uni" None = Some (PersonRead.uni r)
  ∧ field_default opt_str d "first_name" None = Some (PersonRead.first_name r)
  ∧ field_default opt_str d "last_name" None = Some (PersonRead.last_name r)
  ∧ field_default opt_str d "email" None = Some (PersonRead.email r)
  ∧ field_default opt_str d "phone" None = Some (PersonRead.phone r)
  ∧ field_default opt_date d "birth_date" None
    = Some (PersonRead.birth_date r)
  ∧ field_default is_addrs d "addresses" [] = Some (PersonRead.addresses r)
  ∧ field_default is_uuid d "id" (uuid4 env) = Some (PersonRead.id r)
  ∧ field_default is_datetime d "created_at" (utcnow_created env)
    = Some (PersonRead.created_at r)
  ∧ field_default is_datetime d "updated_at" (utcnow_updated env)
    = Some (PersonRead.updated_at r).
Proof.
  unfold PersonRead.validate. intros Hv.
  destruct (field_default opt_str d "uni" None) as [u|]; [|done].
  destruct (field_default opt_str d "first_name" None) as [f|]; [|done].
  destruct (field_default opt_str d "last_name" None) as [l|]; [|done].
  destruct (field_default opt_str d "email" None) as [e|]; [|done].
  destruct (field_default opt_str d "phone" None) as [ph|]; [|done].
  destruct (field_default opt_date d "birth_date" None) as [b|]; [|done].
  destruct (field_default is_addrs d "addresses" []) as [a|]; [|done].
  destruct (field_default is_uuid d "id" (uuid4 env)) as [i|]; [|done].
  destruct (field_default is_datetime d "created_at" _) as [ca|]; [|done].
  destruct (field_default is_datetime d "updated_at" _) as [ua|]; [|done].
  simpl in Hv. injection Hv as <-. done.
Qed.

Lemma is_addrs_inv (v : value) (l : list AddressBase.t) :
  is_addrs v = Some l → v = VAddrs l.
Proof. destruct v; simpl; intros [= <-]; done. Qed.

(** What a successful person update returns and leaves in the store. *)
Lemma update_person_inr (env : Env) (person_id : UUID)
    (update : PersonUpdate.t) (st st' : Store) (r : PersonRead.t) :
  update_person env person_id update st = (st', inr r) →
  ∃ cur,
    persons st !! person_id = Some cur
    ∧ st' = set_persons (<[person_id := r]> (persons st)) st
    ∧ dump_opt VStr (PersonRead.uni r)
      = patched VStr (PersonUpdate.uni update)
                (dump_opt VStr (PersonRead.uni cur))
    ∧ dump_opt VStr (PersonRead.first_name r)
      = patched VStr (PersonUpdate.first_name update)
                (dump_opt VStr (PersonRead.first_name cur))
    ∧ dump_opt VStr (PersonRead.last_name r)
      = patched VStr (PersonUpdate.last_name update)
                (dump_opt VStr (PersonRead.last_name cur))
    ∧ dump_opt VStr (PersonRead.email r)
      = patched VStr (PersonUpdate.email update)
                (dump_opt VStr (PersonRead.email cur))
    ∧ dump_opt VStr (PersonRead.phone r)
      = patched VStr (PersonUpdate.phone update)
                (dump_opt VStr (PersonRead.phone cur))
    ∧ dump_opt VDate (PersonRead.birth_date r)
      = patched VDate (PersonUpdate.birth_date update)
                (dump_opt VDate (PersonRead.birth_date cur))
    ∧ VAddrs (PersonRead.addresses r)
      = patched VAddrs (PersonUpdate.addresses update)
                (VAddrs (PersonRead.addresses cur))
    ∧ PersonRead.id r = PersonRead.id cur
    ∧ PersonRead.created_at r = PersonRead.created_at cur
    ∧ PersonRead.updated_at r = PersonRead.updated_at cur.
Proof.
  rewrite update_person_run.
  destruct (persons st !! person_id) as [cur|]; [|done].
  destruct (PersonRead.validate _ _) as [r'|] eqn:Hv; [|done].
  intros [= <- <-]. exists cur.
  apply PersonRead_validate_inv in Hv
    as (H1 & H2 & H3 & H4 & H5 & H6 & H7 & H8 & H9 & H10).
  destruct (person_kwargs_lookup cur update)
    as (L1 & L2 & L3 & L4 & L5 & L6 & L7 & L8 & L9 & L10).
  rewrite (field_default_Some _ _ _ _ _ L1) in H1.
  rewrite (field_default_Some _ _ _ _ _ L2) in H2.
  rewrite (field_default_Some _ _ _ _ _ L3) in H3.
  rewrite (field_default_Some _ _ _ _ _ L4) in H4.
  rewrite (field_default_Some _ _ _ _ _ L5) in H5.
  rewrite (field_default_Some _ _ _ _ _ L6) in H6.
  rewrite (field_default_Some _ _ _ _ _ L7) in H7.
  rewrite (field_default_Some _ _ _ _ _ L8) in H8.
  rewrite (field_default_Some _ _ _ _ _ L9) in H9.
  rewrite (field_default_Some _ _ _ _ _ L10) in H10.
  apply opt_str_inv in H1, H2, H3, H4, H5. apply opt_date_inv in H6.
  apply is_addrs_inv in H7. simpl in H8, H9, H10.
  repeat split; congruence.
Qed.

(** ** Partial updates, field by field *)

Lemma patched_keeps_or_takes {A} (inj : A → value)
    (payload : option (option A)) (before after : option A) :
  (∀ a b, inj a = inj b → a = b) →
  (∀ a, inj a ≠ VNone) →
  dump_opt inj after = patched inj payload (dump_opt inj before) →
  keeps_or_takes payload before after.
Proof.
  intros Hinj Hnone.
  assert (Hdump : ∀ x y : option A, dump_opt inj x = dump_opt inj y → x = y).
  { intros [x|] [y|]; simpl; intros Hxy; try done.
    - f_equal. by apply Hinj.
    - by apply Hnone in Hxy.
    - symmetry in Hxy. by apply Hnone in Hxy. }
  destruct payload as [v|]; simpl; apply Hdump.
Qed.

Ltac patched_field H :=
  apply (patched_keeps_or_takes _ _ (Some _) (Some _)) in H ||
  apply patched_keeps_or_takes in H;
  [ | intros ? ?; congruence | intros ?; discriminate ].

(** ** A failed request *)

Ltac enter_route :=
  unfold route, fmapM, parse_body, bind at 1, ret, raise.

Lemma route_inl (env : Env) (rq : request) (st st' : Store) (e : exn) :
  route env rq st = (st', inl e) → st' = st.
Proof.
  destruct rq; enter_route.
  - destruct (AddressCreate.validate body); [|congruence].
    unfold bind. rewrite create_address_run.
    destruct (addresses st !! _); simpl; congruence.
  - destruct (AddressUpdate.validate body); [|congruence].
    unfold bind. rewrite update_address_run.
    destruct (addresses st !! _); [|congruence].
    destruct (AddressRead.validate _ _); congruence.
  - destruct (PersonCreate.validate body); [|congruence].
    unfold bind. rewrite create_person_run. simpl. congruence.
  - destruct (PersonUpdate.validate body); [|congruence].
    unfold bind. rewrite update_person_run.
    destruct (persons st !! _); [|congruence].
    destruct (PersonRead.validate _ _); congruence.
  - destruct (CourseCreate.validate body); [|congruence].
    unfold bind. rewrite create_course_run.
    destruct (course_taken _ _ _); congruence.
  - destruct (CourseUpdate.validate body); [|congruence].
    unfold bind. rewrite update_course_run.
    destruct (courses st !! _); [|congruence].
    destruct (course_clash _ _ _ _); [congruence|].
    destruct (CourseRead.validate _ _); congruence.
  - rewrite delete_course_run.
    destruct (courses st !! _); congruence.
  - destruct (AssignmentCreate.validate body); [|congruence].
    unfold bind. rewrite create_assignment_run.
    destruct (courses st !! _); [|congruence].
    destruct (valid_points _); congruence.
  - destruct (AssignmentUpdate.validate body); [|congruence].
    unfold bind. rewrite update_assignment_run.
    destruct (assignments st !! _); [|congruence].
    destruct (dangling _ _); [congruence|].
    destruct (AssignmentRead.validate _ _); congruence.
  - rewrite delete_assignment_run.
    destruct (assignments st !! _); congruence.
Qed.

(** ** The referential invariant *)

Lemma store_ok_empty : store_ok empty_store.
Proof. split; intros ? ?; simpl; by rewrite lookup_empty. Qed.

Lemma store_ok_same (st st' : Store) :
  courses st' = courses st → assignments st' = assignments st →
  store_ok st → store_ok st'.
Proof. unfold store_ok. by intros -> ->. Qed.

Lemma store_ok_insert_course (st : Store) (k : UUID) (c : CourseRead.t) :
  CourseRead.id c = k →
  store_ok st → store_ok (set_courses (<[k := c]> (courses st)) st).
Proof.
  intros Hid [Hk Ha]. split; simpl.
  - intros k' c'. rewrite lookup_insert. case_decide; [|by apply Hk].
    intros [= <-]. congruence.
  - intros aid a Haid. apply Ha in Haid as [c0 Hc0].
    rewrite lookup_insert. case_decide; eauto.
Qed.

Lemma store_ok_insert_assignment (st : Store) (k : UUID)
    (a : AssignmentRead.t) :
  is_Some (courses st !! AssignmentRead.course_id a) →
  store_ok st → store_ok (set_assignments (<[k := a]> (assignments st)) st).
Proof.
  intros Hc [Hk Ha]. split; simpl; [done|].
  intros aid a'. rewrite lookup_insert. case_decide; [|by apply Ha].
  by intros [= <-].
Qed.

Lemma store_ok_delete_assignment (st : Store) (k : UUID) :
  store_ok st → store_ok (set_assignments (delete k (assignments st)) st).
Proof.
  intros [Hk Ha]. split; simpl; [done|].
  intros aid a'. rewrite lookup_delete. case_decide; [done|]. apply Ha.
Qed.

Lemma store_ok_delete_course (st : Store) (k : UUID) :
  store_ok st →
  store_ok (mkStore (persons st) (addresses st) (delete k (courses st))
                    (cascade k (assignments st))).
Proof.
  intros [Hk Ha]. split; simpl.
  - intros k' c. rewrite lookup_delete. case_decide; [done|]. apply Hk.
  - intros aid a. rewrite lookup_cascade.
    destruct (assignments st !! aid) as [a0|] eqn:Ha0; [|done].
    case_decide as Hcid; [done|]. intros [= <-].
    rewrite lookup_delete_ne by done. eauto.
Qed.

Lemma route_store_ok (env : Env) (rq : request) (st : Store) :
  store_ok st → store_ok (route env rq st).1.
Proof.
  intros Hok. destruct (route env rq st) as [st' [e|resp]] eqn:Hr; simpl.
  { apply route_inl in Hr. by subst. }
  revert Hr. destruct rq; enter_route.
  - destruct (AddressCreate.validate body); [|congruence].
    unfold bind. rewrite create_address_run.
    destruct (addresses st !! _); simpl; [congruence|].
    intros [= <- _]. by apply (store_ok_same st).
  - destruct (AddressUpdate.validate body); [|congruence].
    unfold bind. rewrite update_address_run.
    destruct (addresses st !! _); [|congruence].
    destruct (AddressRead.validate _ _); [|congruence].
    intros [= <- _]. by apply (store_ok_same st).
  - destruct (PersonCreate.validate body); [|congruence].
    unfold bind. rewrite create_person_run. simpl.
    intros [= <- _]. by apply (store_ok_same st).
  - destruct (PersonUpdate.validate body); [|congruence].
    unfold bind. rewrite update_person_run.
    destruct (persons st !! _); [|congruence].
    destruct (PersonRead.validate _ _); [|congruence].
    intros [= <- _]. by apply (store_ok_same st).
  - destruct (CourseCreate.validate body); [|congruence].
    unfold bind. rewrite create_course_run.
    destruct (course_taken _ _ _); [congruence|].
    intros [= <- _]. by apply store_ok_insert_course.
  - destruct (CourseUpdate.validate body) as [u|]; [|congruence].
    unfold bind.
    destruct (update_course env course_id u st) as [st1 [e|r]] eqn:Hu;
      [congruence|].
    intros [= <- _].
    apply update_course_inr in Hu
      as (cur & Hcur & -> & _ & _ & _ & _ & Hid & _).
    apply store_ok_insert_course; [|done].
    rewrite Hid. by apply (proj1 Hok).
  - rewrite delete_course_run.
    destruct (courses st !! _); [|congruence].
    intros [= <- _]. by apply store_ok_delete_course.
  - destruct (AssignmentCreate.validate body) as [a|]; [|congruence].
    unfold bind. rewrite create_assignment_run.
    destruct (courses st !! _) eqn:Hc; [|congruence].
    destruct (valid_points _); [|congruence].
    intros [= <- _]. apply store_ok_insert_assignment; [|done].
    simpl. eauto.
  - destruct (AssignmentUpdate.validate body) as [u|]; [|congruence].
    unfold bind.
    destruct (update_assignment env assignment_id u st) as [st1 [e|r]] eqn:Hu;
      [congruence|].
    intros [= <- _].
    apply update_assignment_inr in Hu
      as (cur & Hcur & -> & Hd & Hcid & _).
    apply store_ok_insert_assignment; [|done].
    unfold dangling in Hd.
    destruct (AssignmentUpdate.course_id u) as [[c|]|]; simpl in Hcid.
    + injection Hcid as ->. apply negb_false_iff in Hd.
      by apply bool_decide_eq_true in Hd.
    + done.
    + injection Hcid as ->. by apply (proj2 Hok assignment_id).
  - rewrite delete_assignment_run.
    destruct (assignments st !! _); [|congruence].
    intros [= <- _]. by apply store_ok_delete_assignment.
Qed.

Lemma serve_store_ok (rqs : list (Env * request)) (st : Store) :
  store_ok st → store_ok (serve rqs st).
Proof.
  revert st. induction rqs as [|[env rq] rqs IH]; intros st Hok; simpl;
    [done|].
  by apply IH, route_store_ok.
Qed.

Lemma reachable_store_ok (st : Store) : reachable st → store_ok st.
Proof. intros [rqs ->]. apply serve_store_ok, store_ok_empty. Qed.

(** ** The worked store *)

Lemma ex_store_reachable : reachable ex_store.
Proof. by exists ex_requests. Qed.

Lemma ex_store_course : courses ex_store !! 7%N = Some ex_course.
Proof. vm_compute. reflexivity. Qed.

Lemma ex_store_assignment : assignments ex_store !! 8%N = Some ex_assignment.
Proof. vm_compute. reflexivity. Qed.

(** ** The claims *)

(** C1. Deleting a course whose id is present succeeds, removes that
    course, and removes exactly the assignments whose [course_id] is that
    id; afterwards [get_course] on the id and [get_assignment] on each of
    those assignment ids answer 404 (NotFound). *)
Theorem delete_course_cascade (st : Store) (course_id : UUID)
    (c : CourseRead.t) :
  courses st !! course_id = Some c →
  ∃ st',
    delete_course course_id st = (st', inr tt)
    ∧ courses st' = delete course_id (courses st)
    ∧ get_course course_id st' = (st', inl (NotFound "Course not found"))
    ∧ (∀ aid a,
         assignments st !! aid = Some a →
         AssignmentRead.course_id a = course_id →
         assignments st' !! aid = None
         ∧ get_assignment aid st'
           = (st', inl (NotFound "Assignment not found")))
    ∧ (∀ aid a,
         assignments st !! aid = Some a →
         AssignmentRead.course_id a ≠ course_id →
         assignments st' !! aid = Some a).
Proof.
  intros Hc. eexists. rewrite delete_course_run, Hc.
  split; [reflexivity|]. split; [reflexivity|]. split; [|split].
  - rewrite get_course_run. simpl. by rewrite lookup_delete_eq.
  - intros aid a Ha Hcid.
    assert (cascade course_id (assignments st) !! aid = None) as Hnone.
    { rewrite lookup_cascade, Ha. by rewrite decide_True. }
    split; [done|]. rewrite get_assignment_run. simpl. by rewrite Hnone.
  - intros aid a Ha Hcid. simpl.
    rewrite lookup_cascade, Ha. by rewrite decide_False.
Qed.

Lemma delete_course_cascade_witness :
  courses ex_store !! 7%N = Some ex_course
  ∧ ∃ st',
      delete_course 7%N ex_store = (st', inr tt)
      ∧ courses st' = delete 7%N (courses ex_store)
      ∧ get_course 7%N st' = (st', inl (NotFound "Course not found"))
      ∧ (∀ aid a,
           assignments ex_store !! aid = Some a →
           AssignmentRead.course_id a = 7%N →
           assignments st' !! aid = None
           ∧ get_assignment aid st'
             = (st', inl (NotFound "Assignment not found")))
      ∧ (∀ aid a,
           assignments ex_store !! aid = Some a →
           AssignmentRead.course_id a ≠ 7%N →
           assignments st' !! aid = Some a).
Proof.
  split; [vm_compute; reflexivity|].
  apply (delete_course_cascade ex_store 7%N ex_course).
  vm_compute; reflexivity.
Defined.

(** C3. Creating a course whose (code, semester) equals that of a stored
    course answers 409 (Conflict) and leaves the store as it was; so the
    second of two creates with one (code, semester) answers Conflict. *)
Theorem create_course_conflict :
  (∀ env st course k c,
     courses st !! k = Some c →
     CourseRead.code c = CourseCreate.code course →
     CourseRead.semester c = CourseCreate.semester course →
     create_course env course st = (st, inl Conflict))
  ∧ (∀ env1 env2 st st1 r course1 course2,
       create_course env1 course1 st = (st1, inr r) →
       CourseCreate.code course2 = CourseCreate.code course1 →
       CourseCreate.semester course2 = CourseCreate.semester course1 →
       create_course env2 course2 st1 = (st1, inl Conflict)).
Proof.
  assert (Hfirst : ∀ env st course k c,
     courses st !! k = Some c →
     CourseRead.code c = CourseCreate.code course →
     CourseRead.semester c = CourseCreate.semester course →
     create_course env course st = (st, inl Conflict)).
  { intros env st course k c Hk Hcode Hsem. rewrite create_course_run.
    assert (course_taken (courses st) (CourseCreate.code course)
              (CourseCreate.semester course) = true) as ->; [|done].
    apply course_taken_true. eauto. }
  split; [exact Hfirst|].
  intros env1 env2 st st1 r course1 course2 Hr Hcode Hsem.
  rewrite create_course_run in Hr.
  destruct (course_taken _ _ _); [done|]. injection Hr as <- <-.
  apply (Hfirst env2 _ course2 (uuid4 env1) (new_course env1 course1)).
  - simpl. apply lookup_insert_eq.
  - by rewrite Hcode.
  - by rewrite Hsem.
Qed.

Lemma create_course_conflict_witness :
  let env1 := mkEnv 7%N 100 101 102 in
  let course1 := CourseCreate.Build "X" "T" "I" "F25" in
  let st1 := (create_course env1 course1 empty_store).1 in
  create_course ex_env (CourseCreate.Build "COMS4153" "Cloud" "X" "Fall 2025")
                ex_store
  = (ex_store, inl Conflict)
  ∧ create_course env1 course1 empty_store = (st1, inr (new_course env1 course1))
  ∧ create_course ex_env (CourseCreate.Build "X" "T2" "I2" "F25") st1
    = (st1, inl Conflict).
Proof.
  intros env1 course1 st1. split; [|split].
  - apply (proj1 create_course_conflict ex_env ex_store _ 7%N ex_course);
      vm_compute; reflexivity.
  - vm_compute; reflexivity.
  - apply (proj2 create_course_conflict env1 ex_env empty_store st1
             (new_course env1 course1) course1);
      vm_compute; reflexivity.
Defined.

(** C5. Updating a stored course answers 409 (Conflict) exactly when a
    stored course with another id has the (code, semester) the record
    would have after the merge: the payload's value where the payload
    sets the field, the stored value otherwise.  The store is then left
    as it was. *)
Theorem update_course_conflict_iff (env : Env) (course_id : UUID)
    (update : CourseUpdate.t) (st : Store) (cur : CourseRead.t) :
  courses st !! course_id = Some cur →
  let new_code :=
    patched VStr (CourseUpdate.code update) (VStr (CourseRead.code cur)) in
  let new_sem :=
    patched VStr (CourseUpdate.semester update)
            (VStr (CourseRead.semester cur)) in
  (update_course env course_id update st).2 = inl Conflict
  ↔ ∃ k c, courses st !! k = Some c
           ∧ CourseRead.id c ≠ course_id
           ∧ VStr (CourseRead.code c) = new_code
           ∧ VStr (CourseRead.semester c) = new_sem.
Proof.
  intros Hcur new_code new_sem. rewrite update_course_run, Hcur.
  fold new_code new_sem.
  assert (course_clash (courses st) course_id new_code new_sem = true
          ↔ ∃ k c, courses st !! k = Some c
                   ∧ CourseRead.id c ≠ course_id
                   ∧ VStr (CourseRead.code c) = new_code
                   ∧ VStr (CourseRead.semester c) = new_sem) as Hclash.
  { unfold course_clash. rewrite any_true. split.
    - intros (c & Hc & Hp). apply elem_of_values in Hc as [k Hk].
      apply andb_true_iff in Hp as [Hp H3].
      apply andb_true_iff in Hp as [H1 H2].
      apply bool_decide_eq_true in H1, H2, H3. eauto 10.
    - intros (k & c & Hk & H1 & H2 & H3). exists c. split.
      + apply elem_of_values. eauto.
      + rewrite !andb_true_iff, !bool_decide_eq_true. done. }
  destruct (course_clash _ _ _ _).
  - simpl. split; [intros _; by apply Hclash|done].
  - split.
    + destruct (CourseRead.validate _ _); simpl; intros [=].
    + intros H. apply Hclash in H. done.
Qed.

Lemma update_course_conflict_iff_witness :
  let clash := CourseUpdate.Build (Some (Some "COMS4153")) None None None in
  let own :=
    CourseUpdate.Build (Some (Some "COMS4111")) (Some (Some "DB")) None None in
  courses ex_two_store !! 10%N = Some ex_course2
  ∧ (∃ k c, courses ex_two_store !! k = Some c
            ∧ CourseRead.id c ≠ 10%N
            ∧ VStr (CourseRead.code c) = VStr "COMS4153"
            ∧ VStr (CourseRead.semester c) = VStr "Fall 2025")
  ∧ (update_course ex_env 10%N clash ex_two_store).2 = inl Conflict
  ∧ (update_course ex_env 10%N own ex_two_store).2 ≠ inl Conflict
  ∧ ¬ (∃ k c, courses ex_two_store !! k = Some c
              ∧ CourseRead.id c ≠ 10%N
              ∧ VStr (CourseRead.code c) = VStr "COMS4111"
              ∧ VStr (CourseRead.semester c) = VStr "Fall 2025").
Proof.
  intros clash own.
  assert (courses ex_two_store !! 10%N = Some ex_course2) as Hcur
    by (vm_compute; reflexivity).
  assert (∃ k c, courses ex_two_store !! k = Some c
                 ∧ CourseRead.id c ≠ 10%N
                 ∧ VStr (CourseRead.code c) = VStr "COMS4153"
                 ∧ VStr (CourseRead.semester c) = VStr "Fall 2025") as Hex.
  { exists 7%N, ex_course. split; [vm_compute; reflexivity|].
    split; [discriminate|]. split; reflexivity. }
  assert ((update_course ex_env 10%N own ex_two_store).2 ≠ inl Conflict)
    as Hown by (vm_compute; discriminate).
  split; [exact Hcur|]. split; [exact Hex|]. split; [|split; [exact Hown|]].
  - apply (update_course_conflict_iff ex_env 10%N clash ex_two_store
             ex_course2 Hcur).
    exact Hex.
  - intros Hother. apply Hown.
    apply (update_course_conflict_iff ex_env 10%N own ex_two_store
             ex_course2 Hcur).
    exact Hother.
Defined.

(** C6. A create, update or delete request that raises, whatever the
    exception (404, 409, 400, a rejected body or a rejected record),
    leaves all four stores exactly as they were. *)
Theorem failed_request_leaves_store (env : Env) (rq : request)
    (st st' : Store) (e : exn) :
  route env rq st = (st', inl e) →
  st' = st
  ∧ persons st' = persons st ∧ addresses st' = addresses st
  ∧ courses st' = courses st ∧ assignments st' = assignments st.
Proof. intros Hr. apply route_inl in Hr. by subst. Qed.

Lemma failed_request_leaves_store_witness :
  route ex_env (POST_courses ex_course_body) ex_store
  = (ex_store, inl Conflict)
  ∧ ex_store = ex_store
  ∧ persons ex_store = persons ex_store
  ∧ addresses ex_store = addresses ex_store
  ∧ courses ex_store = courses ex_store
  ∧ assignments ex_store = assignments ex_store.
Proof.
  split; [vm_compute; reflexivity|].
  apply (failed_request_leaves_store ex_env (POST_courses ex_course_body)
           ex_store ex_store Conflict).
  vm_compute; reflexivity.
Defined.

(** C8. From the empty stores, after any sequence of create, update and
    delete requests, every stored assignment's [course_id] is the id of a
    stored course. *)
Theorem assignments_refer_to_courses (rqs : list (Env * request))
    (aid : UUID) (a : AssignmentRead.t) :
  assignments (serve rqs empty_store) !! aid = Some a →
  ∃ c, courses (serve rqs empty_store) !! AssignmentRead.course_id a = Some c
       ∧ CourseRead.id c = AssignmentRead.course_id a.
Proof.
  intros Ha.
  destruct (serve_store_ok rqs empty_store store_ok_empty) as [Hk Href].
  destruct (Href aid a Ha) as [c Hc]. exists c. split; [done|].
  by apply Hk.
Qed.

Lemma assignments_refer_to_courses_witness :
  assignments (serve ex_requests empty_store) !! 8%N = Some ex_assignment
  ∧ ∃ c, courses (serve ex_requests empty_store)
           !! AssignmentRead.course_id ex_assignment = Some c
         ∧ CourseRead.id c = AssignmentRead.course_id ex_assignment.
Proof.
  split; [vm_compute; reflexivity|].
  apply (assignments_refer_to_courses ex_requests 8%N ex_assignment).
  vm_compute; reflexivity.
Defined.

(** C4. In any store the service can be in, creating an assignment, or
    updating a stored one, answers 400 (BadReference) and changes nothing
    when the [course_id] the record would carry (the payload's when the
    payload sets it, the stored one otherwise) is the id of no stored
    course. *)
Theorem assignment_bad_reference (env : Env) (st : Store) :
  reachable st →
  (∀ assignment,
     (∀ k c, courses st !! k = Some c →
             CourseRead.id c ≠ AssignmentCreate.course_id assignment) →
     create_assignment env assignment st = (st, inl BadReference))
  ∧ (∀ assignment_id update cur,
       assignments st !! assignment_id = Some cur →
       (∀ k c, courses st !! k = Some c →
               VUuid (CourseRead.id c)
               ≠ patched VUuid (AssignmentUpdate.course_id update)
                         (VUuid (AssignmentRead.course_id cur))) →
       update_assignment env assignment_id update st
       = (st, inl BadReference)).
Proof.
  intros Hreach. apply reachable_store_ok in Hreach as [Hk Href]. split.
  - intros assignment Hno. rewrite create_assignment_run.
    destruct (courses st !! _) as [c|] eqn:Hc; [|done].
    exfalso. apply (Hno _ _ Hc). by apply Hk.
  - intros assignment_id update cur Hcur Hno.
    rewrite update_assignment_run, Hcur.
    assert (dangling (courses st) update = true) as ->; [|done].
    unfold dangling.
    destruct (AssignmentUpdate.course_id update) as [[u|]|]; simpl in Hno.
    + apply negb_true_iff, bool_decide_eq_false. intros [c Hc].
      apply (Hno _ _ Hc). f_equal. by apply Hk.
    + done.
    + exfalso. destruct (Href _ _ Hcur) as [c Hc].
      apply (Hno _ _ Hc). f_equal. by apply Hk.
Qed.

Lemma assignment_bad_reference_witness :
  reachable ex_store
  ∧ create_assignment ex_env (AssignmentCreate.Build 5%N "HW2" None (Some 10))
      ex_store = (ex_store, inl BadReference)
  ∧ update_assignment ex_env 8%N
      (AssignmentUpdate.Build (Some (Some 5%N)) None None None) ex_store
    = (ex_store, inl BadReference).
Proof.
  assert (Hkeys : ∀ k c, courses ex_store !! k = Some c → CourseRead.id c = 7%N).
  { intros k c. change (courses ex_store) with ({[7%N := ex_course]} : gmap UUID _).
    intros [<- <-]%lookup_singleton_Some. reflexivity. }
  split; [exact ex_store_reachable|]. split.
  - apply (proj1 (assignment_bad_reference ex_env ex_store ex_store_reachable)).
    intros k c Hc. rewrite (Hkeys k c Hc). simpl. discriminate.
  - apply (proj2 (assignment_bad_reference ex_env ex_store ex_store_reachable)
             8%N _ ex_assignment).
    + vm_compute; reflexivity.
    + intros k c Hc. rewrite (Hkeys k c Hc). simpl. discriminate.
Defined.

(** C2. A partial update that succeeds stores and returns a record in
    which every field the payload leaves unset has its value from before
    the update and every field the payload sets has the payload's value.
    This holds for courses and assignments, and for addresses and
    persons. *)
Theorem partial_update_merges (env : Env) (id : UUID) (st st' : Store) :
  (∀ update r,
     update_course env id update st = (st', inr r) →
     ∃ cur, courses st !! id = Some cur ∧ courses st' !! id = Some r
            ∧ course_merged update cur r)
  ∧ (∀ update r,
       update_assignment env id update st = (st', inr r) →
       ∃ cur, assignments st !! id = Some cur
              ∧ assignments st' !! id = Some r
              ∧ assignment_merged update cur r)
  ∧ (∀ update r,
       update_address env id update st = (st', inr r) →
       ∃ cur, addresses st !! id = Some cur ∧ addresses st' !! id = Some r
              ∧ address_merged update cur r)
  ∧ (∀ update r,
       update_person env id update st = (st', inr r) →
       ∃ cur, persons st !! id = Some cur ∧ persons st' !! id = Some r
              ∧ person_merged update cur r).
Proof.
  split; [|split; [|split]]; intros update r Hr.
  - apply update_course_inr in Hr
      as (cur & Hcur & -> & H1 & H2 & H3 & H4 & Hid & Hca & _).
    exists cur. split; [done|]. split; [apply lookup_insert_eq|].
    patched_field H1. patched_field H2. patched_field H3. patched_field H4.
    done.
  - apply update_assignment_inr in Hr
      as (cur & Hcur & -> & _ & H1 & H2 & H3 & H4 & Hid & Hca & _).
    exists cur. split; [done|]. split; [apply lookup_insert_eq|].
    patched_field H1. patched_field H2. patched_field H3. patched_field H4.
    done.
  - apply update_address_inr in Hr
      as (cur & Hcur & -> & H1 & H2 & H3 & H4 & H5 & Hid & Hca & _).
    exists cur. split; [done|]. split; [apply lookup_insert_eq|].
    patched_field H1. patched_field H2. patched_field H3. patched_field H4.
    patched_field H5. done.
  - apply update_person_inr in Hr
      as (cur & Hcur & -> & H1 & H2 & H3 & H4 & H5 & H6 & H7 & Hid & Hca & _).
    exists cur. split; [done|]. split; [apply lookup_insert_eq|].
    patched_field H1. patched_field H2. patched_field H3. patched_field H4.
    patched_field H5. patched_field H6. patched_field H7. done.
Qed.

Lemma partial_update_merges_witness :
  let cu := CourseUpdate.Build None (Some (Some "Clouds")) None None in
  let cr := CourseRead.Build "COMS4153" "Clouds" "Prof. Ferguson" "Fall 2025"
                             7%N 100 500 in
  let cst := (update_course ex_env 7%N cu ex_store).1 in
  let au := AssignmentUpdate.Build None None (Some None) (Some (Some 50)) in
  let ar := AssignmentRead.Build 7%N "HW1" None (Some 50) 8%N 200 500 in
  let ast := (update_assignment ex_env 8%N au ex_store).1 in
  let du := AddressUpdate.Build None (Some (Some "LA")) None None None in
  let dr := AddressRead.Build 1%N "2960 Broadway" "LA" "NY" "10027" "USA"
                              301 302 in
  let dst := (update_address ex_env 1%N du ex_store).1 in
  let pu := PersonUpdate.Build None None None None (Some (Some "555"))
                               None None in
  let pr := PersonRead.Build (Some "abc1234") None None None (Some "555") None
                             [ex_address] 2%N 401 402 in
  let pst := (update_person ex_env 2%N pu ex_store).1 in
  (update_course ex_env 7%N cu ex_store = (cst, inr cr)
   ∧ ∃ cur, courses ex_store !! 7%N = Some cur ∧ courses cst !! 7%N = Some cr
            ∧ course_merged cu cur cr)
  ∧ (update_assignment ex_env 8%N au ex_store = (ast, inr ar)
     ∧ ∃ cur, assignments ex_store !! 8%N = Some cur
              ∧ assignments ast !! 8%N = Some ar
              ∧ assignment_merged au cur ar)
  ∧ (update_address ex_env 1%N du ex_store = (dst, inr dr)
     ∧ ∃ cur, addresses ex_store !! 1%N = Some cur
              ∧ addresses dst !! 1%N = Some dr
              ∧ address_merged du cur dr)
  ∧ (update_person ex_env 2%N pu ex_store = (pst, inr pr)
     ∧ ∃ cur, persons ex_store !! 2%N = Some cur
              ∧ persons pst !! 2%N = Some pr
              ∧ person_merged pu cur pr).
Proof.
  intros cu cr cst au ar ast du dr dst pu pr pst.
  split; [|split; [|split]]; (split; [vm_compute; reflexivity|]).
  - apply (proj1 (partial_update_merges ex_env 7%N ex_store cst) cu cr).
    vm_compute; reflexivity.
  - apply (proj1 (proj2 (partial_update_merges ex_env 8%N ex_store ast))
             au ar).
    vm_compute; reflexivity.
  - apply (proj1 (proj2 (proj2 (partial_update_merges ex_env 1%N ex_store
                                  dst))) du dr).
    vm_compute; reflexivity.
  - apply (proj2 (proj2 (proj2 (partial_update_merges ex_env 2%N ex_store
                                  pst))) pu pr).
    vm_compute; reflexivity.
Defined.

(** C9. A POST /assignments whose body has no [points] and which
    succeeds stores a record with [points = 100].  A POST or PATCH whose
    body carries an integer [points] outside 0..1000 is rejected while
    the body is parsed (422), before the handler runs, and the store is
    left as it was. *)
Theorem assignment_points (env : Env) (body : pydict) (st : Store) :
  (body !! "points" = None →
   ∀ st' resp,
     route env (POST_assignments body) st = (st', inr resp) →
     ∃ r, resp = RAssignment r
          ∧ AssignmentRead.points r = Some 100
          ∧ assignments st' !! AssignmentRead.id r = Some r)
  ∧ (∀ z, body !! "points" = Some (VInt z) →
          ¬ (0 ≤ z ∧ z ≤ 1000) →
          route env (POST_assignments body) st
          = (st, inl RequestValidationError)
          ∧ ∀ assignment_id,
              route env (PATCH_assignments assignment_id body) st
              = (st, inl RequestValidationError)).
Proof.
  split.
  - intros Hp st' resp. enter_route.
    destruct (AssignmentCreate.validate body) as [a|] eqn:Hv; [|done].
    assert (AssignmentCreate.points a = Some 100) as Hpts.
    { revert Hv. unfold AssignmentCreate.validate, field_default.
      rewrite Hp.
      destruct (field_uuid body "course_id"); [|done].
      destruct (field_str body "title"); [|done].
      destruct (body !! "due_date") as [v|]; [destruct (opt_date v)|];
        simpl; try done; by intros [= <-]. }
    unfold bind. rewrite create_assignment_run.
    destruct (courses st !! _); [|done].
    destruct (valid_points _); [|done].
    intros [= <- <-]. eexists. split; [reflexivity|]. split; [done|].
    simpl. apply lookup_insert_eq.
  - intros z Hp Hz.
    assert (opt_points (VInt z) = None) as Hopt.
    { simpl. by rewrite bool_decide_eq_false_2. }
    split; [|intros assignment_id]; enter_route.
    + assert (AssignmentCreate.validate body = None) as ->; [|done].
      unfold AssignmentCreate.validate, field_default. rewrite Hp, Hopt.
      destruct (field_uuid body "course_id"); [|done].
      destruct (field_str body "title"); [|done].
      destruct (body !! "due_date") as [v|]; [destruct (opt_date v)|]; done.
    + assert (AssignmentUpdate.validate body = None) as ->; [|done].
      unfold AssignmentUpdate.validate, unset_or. rewrite Hp, Hopt.
      destruct (body !! "course_id") as [v1|];
        [destruct (opt_uuid v1)|]; simpl; try done;
      (destruct (body !! "title") as [v2|];
        [destruct (opt_str v2)|]; simpl; try done);
      (destruct (body !! "due_date") as [v3|];
        [destruct (opt_date v3)|]; simpl; done).
Qed.

Lemma assignment_points_witness :
  let late := <["points" := VInt 1001]> ex_assignment_body in
  let st' := (route ex_env (POST_assignments ex_assignment_body) ex_store).1 in
  let r := AssignmentRead.Build 7%N "HW1" None (Some 100) 12%N 500 500 in
  (ex_assignment_body !! "points" = None
   ∧ route ex_env (POST_assignments ex_assignment_body) ex_store
     = (st', inr (RAssignment r))
   ∧ ∃ r', RAssignment r = RAssignment r'
           ∧ AssignmentRead.points r' = Some 100
           ∧ assignments st' !! AssignmentRead.id r' = Some r')
  ∧ (late !! "points" = Some (VInt 1001)
     ∧ ¬ (0 ≤ 1001 ∧ 1001 ≤ 1000)
     ∧ route ex_env (POST_assignments late) ex_store
       = (ex_store, inl RequestValidationError)
     ∧ ∀ assignment_id,
         route ex_env (PATCH_assignments assignment_id late) ex_store
         = (ex_store, inl RequestValidationError)).
Proof.
  intros late st' r. split.
  - split; [vm_compute; reflexivity|]. split; [vm_compute; reflexivity|].
    apply (proj1 (assignment_points ex_env ex_assignment_body ex_store));
      vm_compute; reflexivity.
  - split; [vm_compute; reflexivity|]. split; [lia|].
    apply (proj2 (assignment_points ex_env late ex_store) 1001);
      [vm_compute; reflexivity|lia].
Defined.

Lemma filter_decide {B} (o : option B) (P : B → Prop)
    `{∀ b, Decision (P b)} :
  (∀ b, o = Some b → bool_decide (P b) = true) ↔ (∀ b, o = Some b → P b).
Proof.
  split; intros Hb b Ho; specialize (Hb b Ho);
    by apply bool_decide_eq_true in Hb || apply bool_decide_eq_true.
Qed.

Lemma filter_any {A B} (o : option B) (l : list A) (P : B → A → Prop)
    `{∀ b a, Decision (P b a)} :
  (∀ b, o = Some b → any (λ a, bool_decide (P b a)) l = true)
  ↔ (∀ b, o = Some b → ∃ a, a ∈ l ∧ P b a).
Proof.
  split; intros Hb b Ho; specialize (Hb b Ho).
  - apply any_true in Hb as (a & Ha & HP).
    apply bool_decide_eq_true in HP. eauto.
  - destruct Hb as (a & Ha & HP). apply any_true. exists a.
    by rewrite bool_decide_eq_true.
Qed.

(** C10. GET /persons returns exactly the stored persons that pass every
    supplied filter; a city (or country) filter is passed by the persons
    with at least one embedded address of that city (or country). *)
Theorem list_persons_exact (q : PersonQuery.t) (st : Store) :
  ∃ results,
    list_persons q st = (st, inr results)
    ∧ ∀ p, p ∈ results ↔
           (∃ person_id, persons st !! person_id = Some p)
           ∧ person_matches q p.
Proof.
  unfold list_persons, bind, gets, ret. cbv zeta. simpl.
  eexists. split; [reflexivity|]. intros p.
  rewrite !elem_of_filter_by, elem_of_values. unfold person_matches.
  rewrite !filter_decide.
  rewrite (filter_any (PersonQuery.city q) (PersonRead.addresses p)
             (λ city addr, AddressBase.city addr = city)).
  rewrite (filter_any (PersonQuery.country q) (PersonRead.addresses p)
             (λ country addr, AddressBase.country addr = country)).
  tauto.
Qed.

Lemma list_persons_exact_witness :
  let q := PersonQuery.Build None None None None None (Some "0099-01-01")
                             (Some "NYC") None in
  ∃ results,
    list_persons q ex_people_store = (ex_people_store, inr results)
    ∧ ex_person_old ∈ results
    ∧ ex_person_la ∉ results.
Proof.
  intros q.
  destruct (list_persons_exact q ex_people_store) as (results & Hrun & Hiff).
  exists results. split; [exact Hrun|]. split.
  - apply Hiff. split; [exists 21%N; vm_compute; reflexivity|].
    unfold person_matches. repeat split; intros v Hv; try discriminate Hv.
    + injection Hv as <-. vm_compute. reflexivity.
    + injection Hv as <-. exists ex_address. split; [left|reflexivity].
  - intros Hin. apply Hiff in Hin as [_ (_ & _ & _ & _ & _ & Hb & _)].
    specialize (Hb "0099-01-01" eq_refl). vm_compute in Hb.
    discriminate Hb.
Defined.

(** The text of a date, as the [birth_date] filter compares it. *)
Lemma str_date_examples :
  str_date (Date 99 1 1) = "0099-01-01"
  ∧ str_date (Date 1 12 31) = "0001-12-31"
  ∧ str_date (Date 2025 9 4) = "2025-09-04"
  ∧ str_date (Date 9999 10 10) = "9999-10-10"
  ∧ str_birth_date None = "None".
Proof. vm_compute. repeat split; reflexivity. Qed.

Lemma length_append (s1 s2 : string) :
  String.length (s1 +:+ s2) = (String.length s1 + String.length s2)%nat.
Proof. induction s1 as [|c s1 IH]; simpl; [done|]. by rewrite IH. Qed.

Lemma length_zeros (n : nat) : String.length (zeros n) = n.
Proof. induction n as [|n IH]; simpl; [done|]. by rewrite IH. Qed.

Lemma zfill_length (width : nat) (s : string) :
  String.length (zfill width s) = Nat.max width (String.length s).
Proof. unfold zfill. rewrite length_append, length_zeros. lia. Qed.

Lemma zfill_long (width : nat) (s : string) :
  (width ≤ String.length s)%nat → zfill width s = s.
Proof.
  intros Hle. unfold zfill.
  replace (width - String.length s)%nat with O by lia. reflexivity.
Qed.

Lemma list_persons_birth_date_example :
  list_persons
    (PersonQuery.Build None None None None None (Some "0099-01-01") None None)
    ex_people_store
  = (ex_people_store, inr [ex_person_old])
  ∧ list_persons
      (PersonQuery.Build None None None None None (Some "None") None None)
      ex_people_store
    = (ex_people_store, inr [ex_person_la])
  ∧ list_persons
      (PersonQuery.Build None None None None None (Some "099-01-01") None None)
      ex_people_store
    = (ex_people_store, inr []).
Proof. vm_compute. repeat split; reflexivity. Qed.

(** C7. [update_address] and [update_person] return the stored
    [updated_at] unchanged: here every clock of the request reads 500 or
    later, the update succeeds and changes a field, and [updated_at] is
    still the 302 (402) written at creation.  [update_course] on the same
    store, in the same request environment, writes 500. *)
Theorem update_address_person_stale_updated_at :
  utcnow ex_env = 500
  ∧ (∃ st' r,
       update_address ex_env 1%N
         (AddressUpdate.Build None (Some (Some "LA")) None None None) ex_store
       = (st', inr r)
       ∧ AddressRead.city r = "LA"
       ∧ AddressRead.updated_at r = 302)
  ∧ (∃ st' r,
       update_person ex_env 2%N
         (PersonUpdate.Build None None None None (Some (Some "555")) None None)
         ex_store
       = (st', inr r)
       ∧ PersonRead.phone r = Some "555"
       ∧ PersonRead.updated_at r = 402)
  ∧ (∃ st' r,
       update_course ex_env 7%N
         (CourseUpdate.Build None (Some (Some "Clouds")) None None) ex_store
       = (st', inr r)
       ∧ CourseRead.updated_at r = 500).
Proof.
  split; [reflexivity|].
  split; [|split]; eexists _, _; (split; [vm_compute; reflexivity|]);
    repeat split; reflexivity.
Qed.


(** * Further properties of the handlers *)

(** ** Requests as store transitions *)

Lemma update_course_inr_clash (env : Env) (course_id : UUID)
    (update : CourseUpdate.t) (st st' : Store) (r : CourseRead.t) :
  update_course env course_id update st = (st', inr r) →
  course_clash (courses st) course_id (VStr (CourseRead.code r))
               (VStr (CourseRead.semester r)) = false.
Proof.
  intros Hr.
  destruct (update_course_inr _ _ _ _ _ _ Hr)
    as (cur & Hcur & _ & H1 & _ & _ & H4 & _).
  rewrite update_course_run, Hcur in Hr. rewrite H1, H4.
  destruct (course_clash _ _ _ _); [done|reflexivity].
Qed.

Lemma update_assignment_inr_points (env : Env) (assignment_id : UUID)
    (update : AssignmentUpdate.t) (st st' : Store) (r : AssignmentRead.t) :
  update_assignment env assignment_id update st = (st', inr r) →
  valid_points (AssignmentRead.points r) = true.
Proof.
  rewrite update_assignment_run.
  destruct (assignments st !! assignment_id) as [cur|]; [|done].
  destruct (dangling _ _); [done|].
  destruct (AssignmentRead.validate _ _) as [r'|] eqn:Hv; [|done].
  intros [= _ <-].
  apply AssignmentRead_validate_inv in Hv as (_ & _ & _ & H4 & _).
  destruct (assignment_kwargs_lookup env cur update) as (_ & _ & _ & L4 & _).
  rewrite (field_default_Some _ _ _ _ _ L4) in H4.
  by apply opt_points_inv in H4 as [_ ?].
Qed.

Lemma route_transition (env : Env) (rq : request) (st st' : Store)
    (resp : response) :
  route env rq st = (st', inr resp) → transition st st'.
Proof.
  destruct rq; enter_route.
  - destruct (AddressCreate.validate body) as [a|]; [|congruence].
    unfold bind. rewrite create_address_run.
    destruct (addresses st !! _) eqn:Ha; simpl; [congruence|].
    intros [= <- _]. by apply (t_create_address st a).
  - destruct (AddressUpdate.validate body) as [u|]; [|congruence].
    unfold bind.
    destruct (update_address env address_id u st) as [st1 [e|r]] eqn:Hu;
      [congruence|].
    intros [= <- _].
    apply update_address_inr in Hu
      as (cur & Hcur & -> & _ & _ & _ & _ & _ & Hid & _).
    by apply (t_update_address st _ cur).
  - destruct (PersonCreate.validate body) as [p|]; [|congruence].
    unfold bind. rewrite create_person_run. simpl.
    intros [= <- _].
    apply (t_create_person st
             (PersonRead.Build _ _ _ _ _ _ _ (uuid4 env) _ _)).
  - destruct (PersonUpdate.validate body) as [u|]; [|congruence].
    unfold bind.
    destruct (update_person env person_id u st) as [st1 [e|r]] eqn:Hu;
      [congruence|].
    intros [= <- _].
    apply update_person_inr in Hu
      as (cur & Hcur & -> & _ & _ & _ & _ & _ & _ & _ & Hid & _).
    by apply (t_update_person st _ cur).
  - destruct (CourseCreate.validate body) as [c|]; [|congruence].
    unfold bind. rewrite create_course_run.
    destruct (course_taken _ _ _) eqn:Ht; [congruence|].
    intros [= <- _]. by apply (t_create_course st (new_course env c)).
  - destruct (CourseUpdate.validate body) as [u|]; [|congruence].
    unfold bind.
    destruct (update_course env course_id u st) as [st1 [e|r]] eqn:Hu;
      [congruence|].
    intros [= <- _].
    pose proof (update_course_inr_clash _ _ _ _ _ _ Hu) as Hclash.
    apply update_course_inr in Hu
      as (cur & Hcur & -> & _ & _ & _ & _ & Hid & _).
    by apply (t_update_course st _ cur).
  - rewrite delete_course_run.
    destruct (courses st !! _) as [c|] eqn:Hc; [|congruence].
    intros [= <- _]. by apply (t_delete_course st _ c).
  - destruct (AssignmentCreate.validate body) as [a|]; [|congruence].
    unfold bind. rewrite create_assignment_run.
    destruct (courses st !! _) eqn:Hc; [|congruence].
    destruct (valid_points _) eqn:Hp; [|congruence].
    intros [= <- _].
    apply (t_create_assignment st (new_assignment env a)); simpl; eauto.
  - destruct (AssignmentUpdate.validate body) as [u|]; [|congruence].
    unfold bind.
    destruct (update_assignment env assignment_id u st) as [st1 [e|r]] eqn:Hu;
      [congruence|].
    intros [= <- _].
    pose proof (update_assignment_inr_points _ _ _ _ _ _ Hu) as Hp.
    apply update_assignment_inr in Hu
      as (cur & Hcur & -> & Hd & Hcid & _ & _ & _ & Hid & _).
    apply (t_update_assignment st _ cur); try done.
    unfold dangling in Hd.
    destruct (AssignmentUpdate.course_id u) as [[c|]|]; simpl in Hcid.
    + injection Hcid as ->. left. apply negb_false_iff in Hd.
      by apply bool_decide_eq_true in Hd.
    + done.
    + injection Hcid as ->. by right.
  - rewrite delete_assignment_run.
    destruct (assignments st !! _) as [a|] eqn:Ha; [|congruence].
    intros [= <- _]. by apply (t_delete_assignment st _ a).
Qed.

(** Serving a sequence of requests is a chain of transitions. *)
Lemma serve_invariant (P : Store → Prop) (rqs : list (Env * request))
    (st : Store) :
  (∀ s s', P s → transition s s' → P s') →
  P st → P (serve rqs st).
Proof.
  intros Hstep. revert st.
  induction rqs as [|[env rq] rqs IH]; intros st HP; simpl; [done|].
  apply IH. destruct (route env rq st) as [st' [e|resp]] eqn:Hr; simpl.
  - apply route_inl in Hr. by subst.
  - apply route_transition in Hr. by apply (Hstep st).
Qed.

Lemma course_clash_true (cs : gmap UUID CourseRead.t) (course_id : UUID)
    (new_code new_sem : value) :
  course_clash cs course_id new_code new_sem = true
  ↔ ∃ k c, cs !! k = Some c ∧ CourseRead.id c ≠ course_id
           ∧ VStr (CourseRead.code c) = new_code
           ∧ VStr (CourseRead.semester c) = new_sem.
Proof.
  unfold course_clash. rewrite any_true. split.
  - intros (c & Hc & Hp). apply elem_of_values in Hc as [k Hk].
    apply andb_true_iff in Hp as [Hp H3].
    apply andb_true_iff in Hp as [H1 H2].
    apply bool_decide_eq_true in H1, H2, H3. eauto 10.
  - intros (k & c & Hk & H1 & H2 & H3). exists c. split.
    + apply elem_of_values. eauto.
    + rewrite !andb_true_iff, !bool_decide_eq_true. done.
Qed.

(** ** Invariants of the reachable stores *)

Lemma transition_keys_are_ids (s s' : Store) :
  keys_are_ids s → transition s s' → keys_are_ids s'.
Proof.
  intros (Hp & Ha & Hc & Hs) Ht.
  destruct Ht; repeat split; simpl; try done; intros k' x.
  - rewrite lookup_insert. case_decide; [|by apply Ha].
    intros [= <-]. congruence.
  - rewrite lookup_insert. case_decide; [|by apply Ha].
    intros [= <-]. subst k'. rewrite H0. by apply Ha.
  - rewrite lookup_insert. case_decide; [|by apply Hp].
    intros [= <-]. done.
  - rewrite lookup_insert. case_decide; [|by apply Hp].
    intros [= <-]. subst k'. rewrite H0. by apply Hp.
  - rewrite lookup_insert. case_decide; [|by apply Hc].
    intros [= <-]. done.
  - rewrite lookup_insert. case_decide; [|by apply Hc].
    intros [= <-]. subst k'. rewrite H0. by apply Hc.
  - rewrite lookup_delete. case_decide; [done|]. apply Hc.
  - rewrite lookup_cascade.
    destruct (assignments s !! k') as [a0|] eqn:Ha0; [|done].
    case_decide; [done|]. intros [= <-]. by apply Hs.
  - rewrite lookup_insert. case_decide; [|by apply Hs].
    intros [= <-]. done.
  - rewrite lookup_insert. case_decide; [|by apply Hs].
    intros [= <-]. subst k'. rewrite H0. by apply Hs.
  - rewrite lookup_delete. case_decide; [done|]. apply Hs.
Qed.

Lemma transition_courses_unique (s s' : Store) :
  keys_are_ids s → courses_unique s → transition s s' → courses_unique s'.
Proof.
  intros (_ & _ & Hc & _) Hu Ht.
  destruct Ht; try exact Hu; intros k1 k2 c1 c2; simpl.
  - (* create_course *)
    rewrite !lookup_insert.
    destruct (decide (CourseRead.id r = k1)) as [E1|N1];
      destruct (decide (CourseRead.id r = k2)) as [E2|N2];
      try congruence.
    + intros [= <-] H2 Hcode Hsem. exfalso.
      assert (course_taken (courses s) (CourseRead.code r)
                (CourseRead.semester r) = true) as Ht
        by (apply course_taken_true; eauto).
      congruence.
    + intros H1 [= <-] Hcode Hsem. exfalso.
      assert (course_taken (courses s) (CourseRead.code r)
                (CourseRead.semester r) = true) as Ht
        by (apply course_taken_true; eauto).
      congruence.
    + apply Hu.
  - (* update_course *)
    rewrite !lookup_insert.
    destruct (decide (k = k1)) as [E1|N1];
      destruct (decide (k = k2)) as [E2|N2];
      try congruence.
    + intros [= <-] H2' Hcode Hsem. exfalso.
      assert (course_clash (courses s) k (VStr (CourseRead.code r))
                (VStr (CourseRead.semester r)) = true) as Ht.
      { apply course_clash_true. exists k2, c2.
        rewrite (Hc _ _ H2'). repeat split; try done; congruence. }
      congruence.
    + intros H1' [= <-] Hcode Hsem. exfalso.
      assert (course_clash (courses s) k (VStr (CourseRead.code r))
                (VStr (CourseRead.semester r)) = true) as Ht.
      { apply course_clash_true. exists k1, c1.
        rewrite (Hc _ _ H1'). repeat split; try done; congruence. }
      congruence.
    + apply Hu.
  - (* delete_course *)
    rewrite !lookup_delete. repeat case_decide; try done. apply Hu.
Qed.

Lemma transition_points_valid (s s' : Store) :
  points_valid s → transition s s' → points_valid s'.
Proof.
  intros Hv Ht. destruct Ht; try exact Hv; intros k' x; simpl.
  - rewrite lookup_cascade.
    destruct (assignments s !! k') as [a0|] eqn:Ha0; [|done].
    case_decide; [done|]. intros [= <-]. by apply (Hv k').
  - rewrite lookup_insert. case_decide; [|by apply Hv]. by intros [= <-].
  - rewrite lookup_insert. case_decide; [|by apply Hv]. by intros [= <-].
  - rewrite lookup_delete. case_decide; [done|]. apply Hv.
Qed.

Lemma serve_invariants (rqs : list (Env * request)) :
  keys_are_ids (serve rqs empty_store)
  ∧ courses_unique (serve rqs empty_store)
  ∧ points_valid (serve rqs empty_store).
Proof.
  apply (serve_invariant
           (λ s, keys_are_ids s ∧ courses_unique s ∧ points_valid s)).
  - intros s s' (Hk & Hu & Hp) Ht. split; [|split].
    + by apply (transition_keys_are_ids s).
    + by apply (transition_courses_unique s).
    + by apply (transition_points_valid s).
  - split; [|split].
    + repeat split; intros ? ?; simpl; by rewrite lookup_empty.
    + intros k1 k2 c1 c2. simpl. by rewrite lookup_empty.
    + intros k a. simpl. by rewrite lookup_empty.
Qed.

(** X1. From the empty stores, after any sequence of requests, no two
    stored courses have the same (code, semester). *)
Theorem reachable_courses_unique (rqs : list (Env * request))
    (k1 k2 : UUID) (c1 c2 : CourseRead.t) :
  courses (serve rqs empty_store) !! k1 = Some c1 →
  courses (serve rqs empty_store) !! k2 = Some c2 →
  CourseRead.code c1 = CourseRead.code c2 →
  CourseRead.semester c1 = CourseRead.semester c2 →
  k1 = k2 ∧ c1 = c2.
Proof.
  intros H1 H2 Hcode Hsem.
  destruct (serve_invariants rqs) as (_ & Hu & _).
  assert (k1 = k2) as -> by by apply (Hu k1 k2 c1 c2).
  split; [done|]. congruence.
Qed.

Lemma reachable_courses_unique_witness :
  let first := [(mkEnv 7%N 100 101 102, POST_courses ex_course_body)] in
  route (mkEnv 11%N 150 151 152) (POST_courses ex_dup_body)
        (serve first empty_store)
  = (serve first empty_store, inl Conflict)
  ∧ courses (serve ex_two_requests empty_store) !! 7%N = Some ex_course
  ∧ courses (serve ex_two_requests empty_store) !! 10%N = Some ex_course2
  ∧ courses (serve ex_two_requests empty_store) !! 11%N = None
  ∧ (∀ k c,
       courses (serve ex_two_requests empty_store) !! k = Some c →
       CourseRead.code c = "COMS4153" →
       CourseRead.semester c = "Fall 2025" →
       k = 7%N ∧ c = ex_course)
  ∧ ¬ (CourseRead.code ex_course = CourseRead.code ex_course2
       ∧ CourseRead.semester ex_course = CourseRead.semester ex_course2).
Proof.
  intros first.
  assert (courses (serve ex_two_requests empty_store) !! 7%N
          = Some ex_course) as H7 by (vm_compute; reflexivity).
  assert (courses (serve ex_two_requests empty_store) !! 10%N
          = Some ex_course2) as H10 by (vm_compute; reflexivity).
  split; [vm_compute; reflexivity|]. split; [exact H7|].
  split; [exact H10|]. split; [vm_compute; reflexivity|]. split.
  - intros k c Hk Hcode Hsem.
    apply (reachable_courses_unique ex_two_requests k 7%N c ex_course
             Hk H7 Hcode Hsem).
  - intros [Hcode Hsem].
    destruct (reachable_courses_unique ex_two_requests 7%N 10%N
                ex_course ex_course2 H7 H10 Hcode Hsem) as [Hkeys _].
    discriminate Hkeys.
Defined.

(** X2. From the empty stores, after any sequence of requests, every
    person, address, course and assignment is stored under the key that
    is its own [id]. *)
Theorem reachable_keys_are_ids (rqs : list (Env * request)) :
  keys_are_ids (serve rqs empty_store).
Proof. apply serve_invariants. Qed.

(** X3. From the empty stores, after any sequence of requests, the
    points of every stored assignment is null or lies within 0..1000. *)
Theorem reachable_points_in_range (rqs : list (Env * request))
    (k : UUID) (a : AssignmentRead.t) :
  assignments (serve rqs empty_store) !! k = Some a →
  AssignmentRead.points a = None
  ∨ ∃ z, AssignmentRead.points a = Some z ∧ 0 ≤ z ∧ z ≤ 1000.
Proof.
  intros Ha. destruct (serve_invariants rqs) as (_ & _ & Hp).
  specialize (Hp k a Ha). unfold valid_points in Hp.
  destruct (AssignmentRead.points a) as [z|]; [|by left].
  right. exists z. apply bool_decide_eq_true in Hp. done.
Qed.

Lemma reachable_points_in_range_witness :
  assignments (serve ex_requests empty_store) !! 8%N = Some ex_assignment
  ∧ (AssignmentRead.points ex_assignment = None
     ∨ ∃ z, AssignmentRead.points ex_assignment = Some z ∧ 0 ≤ z ∧ z ≤ 1000).
Proof.
  split; [vm_compute; reflexivity|].
  apply (reachable_points_in_range ex_requests 8%N ex_assignment).
  vm_compute; reflexivity.
Defined.


Lemma reachable_keys_are_ids_witness :
  courses (serve ex_requests empty_store) !! 7%N = Some ex_course
  ∧ CourseRead.id ex_course = 7%N.
Proof.
  split; [vm_compute; reflexivity|].
  destruct (reachable_keys_are_ids ex_requests) as (_ & _ & Hc & _).
  apply (Hc 7%N ex_course). vm_compute; reflexivity.
Defined.

(** ** Create, then read *)

Lemma get_address_run (st : Store) (address_id : UUID) :
  get_address address_id st =
    match addresses st !! address_id with
    | None => (st, inl (NotFound "Address not found"))
    | Some a => (st, inr a)
    end.
Proof.
  unfold get_address, bind, gets, getitem, raise.
  destruct (addresses st !! address_id) eqn:Hc;
    [rewrite bool_decide_eq_false_2 by done; by rewrite Hc
    |by rewrite bool_decide_eq_true_2].
Qed.

Lemma get_person_run (st : Store) (person_id : UUID) :
  get_person person_id st =
    match persons st !! person_id with
    | None => (st, inl (NotFound "Person not found"))
    | Some a => (st, inr a)
    end.
Proof.
  unfold get_person, bind, gets, getitem, raise.
  destruct (persons st !! person_id) eqn:Hc;
    [rewrite bool_decide_eq_false_2 by done; by rewrite Hc
    |by rewrite bool_decide_eq_true_2].
Qed.

(** X4. A [create_course] that returns normally returns a record with
    the payload's four fields, the generated id and one timestamp for
    [created_at] and [updated_at]; the record is stored under its id,
    [get_course] on that id returns it, and every other key of the course
    store and every other store is as before. *)
Theorem create_course_then_get (env : Env) (course : CourseCreate.t)
    (st st' : Store) (r : CourseRead.t) :
  create_course env course st = (st', inr r) →
  CourseRead.code r = CourseCreate.code course
  ∧ CourseRead.title r = CourseCreate.title course
  ∧ CourseRead.instructor r = CourseCreate.instructor course
  ∧ CourseRead.semester r = CourseCreate.semester course
  ∧ CourseRead.id r = uuid4 env
  ∧ CourseRead.created_at r = utcnow env
  ∧ CourseRead.updated_at r = CourseRead.created_at r
  ∧ get_course (CourseRead.id r) st' = (st', inr r)
  ∧ (∀ k, k ≠ CourseRead.id r → courses st' !! k = courses st !! k)
  ∧ persons st' = persons st ∧ addresses st' = addresses st
  ∧ assignments st' = assignments st.
Proof.
  rewrite create_course_run.
  destruct (course_taken _ _ _); [done|]. intros [= <- <-].
  repeat split; try reflexivity.
  - rewrite get_course_run. simpl. by rewrite lookup_insert_eq.
  - intros k Hk. simpl in *. by rewrite lookup_insert_ne.
Qed.

Lemma create_course_then_get_witness :
  let env := mkEnv 7%N 100 101 102 in
  let course := CourseCreate.Build "X" "T" "I" "F25" in
  let r := CourseRead.Build "X" "T" "I" "F25" 7%N 100 100 in
  let st' := (create_course env course empty_store).1 in
  create_course env course empty_store = (st', inr r)
  ∧ get_course (CourseRead.id r) st' = (st', inr r).
Proof.
  intros env course r st'. split; [vm_compute; reflexivity|].
  apply (create_course_then_get env course empty_store st' r).
  vm_compute; reflexivity.
Defined.

(** X5. [create_address] answers 400 and changes nothing when the
    payload's id is already a key of the address store; otherwise it
    stores the address under that id, with the payload's fields, and
    [get_address] on the id returns the stored record. *)
Theorem create_address_then_get (env : Env) (address : AddressCreate.t)
    (st : Store) :
  (is_Some (addresses st !! AddressBase.id address) →
   create_address env address st = (st, inl DuplicateId))
  ∧ (addresses st !! AddressBase.id address = None →
     ∃ st' r,
       create_address env address st = (st', inr r)
       ∧ AddressRead.id r = AddressBase.id address
       ∧ AddressRead.street r = AddressBase.street address
       ∧ AddressRead.city r = AddressBase.city address
       ∧ AddressRead.state r = AddressBase.state address
       ∧ AddressRead.postal_code r = AddressBase.postal_code address
       ∧ AddressRead.country r = AddressBase.country address
       ∧ get_address (AddressBase.id address) st' = (st', inr r)
       ∧ create_address env address st' = (st', inl DuplicateId)).
Proof.
  split.
  - intros [a Ha]. by rewrite create_address_run, Ha.
  - intros Ha. eexists _, _. rewrite create_address_run, Ha. simpl.
    split; [reflexivity|]. repeat split.
    + rewrite get_address_run. simpl. by rewrite lookup_insert_eq.
    + rewrite create_address_run. simpl. by rewrite lookup_insert_eq.
Qed.

Lemma create_address_then_get_witness :
  (is_Some (addresses ex_store !! AddressBase.id ex_address)
   ∧ create_address ex_env ex_address ex_store = (ex_store, inl DuplicateId))
  ∧ (addresses empty_store !! AddressBase.id ex_address = None
     ∧ ∃ st' r,
         create_address ex_env ex_address empty_store = (st', inr r)
         ∧ AddressRead.id r = AddressBase.id ex_address
         ∧ AddressRead.street r = AddressBase.street ex_address
         ∧ AddressRead.city r = AddressBase.city ex_address
         ∧ AddressRead.state r = AddressBase.state ex_address
         ∧ AddressRead.postal_code r = AddressBase.postal_code ex_address
         ∧ AddressRead.country r = AddressBase.country ex_address
         ∧ get_address (AddressBase.id ex_address) st' = (st', inr r)
         ∧ create_address ex_env ex_address st' = (st', inl DuplicateId)).
Proof.
  split; split.
  - vm_compute; eauto.
  - apply (proj1 (create_address_then_get ex_env ex_address ex_store)).
    vm_compute; eauto.
  - vm_compute; reflexivity.
  - apply (proj2 (create_address_then_get ex_env ex_address empty_store)).
    vm_compute; reflexivity.
Defined.

(** ** Listing *)

Lemma filter_by_nil {A B} (q : option B) (P : B → A → bool) (l : list A) :
  (∀ x, x ∈ l → ∃ b, q = Some b ∧ P b x = false) → filter_by q P l = [].
Proof.
  intros Hall. destruct q as [b|]; simpl.
  - induction l as [|x l IH]; [done|]. simpl.
    destruct (Hall x) as (b' & [= <-] & ->); [by left|].
    apply IH. intros y Hy. apply Hall. by right.
  - destruct l as [|x l]; [done|].
    destruct (Hall x) as (b' & [=] & _). by left.
Qed.

Lemma NoDup_filter_by {A B} (q : option B) (P : B → A → bool) (l : list A) :
  NoDup l → NoDup (filter_by q P l).
Proof.
  intros Hnd. destruct q as [b|]; simpl; [|done].
  induction Hnd as [|x l Hx Hnd IH]; simpl; [constructor|].
  destruct (P b x); [|done]. constructor; [|done].
  intros Hin. apply Hx.
  apply list_elem_of_In, filter_In in Hin as [Hin _].
  by apply list_elem_of_In.
Qed.

Lemma NoDup_values {A} (m : gmap UUID A) (key : A → UUID) :
  (∀ k x, m !! k = Some x → key x = k) → NoDup (values m).
Proof.
  intros Hkey. unfold values. apply NoDup_fmap_2_strong.
  - intros [k1 x1] [k2 x2] H1 H2. simpl. intros <-.
    apply elem_of_map_to_list in H1, H2.
    rewrite <- (Hkey _ _ H1), <- (Hkey _ _ H2). done.
  - apply NoDup_map_to_list.
Qed.

(** X6. GET /courses returns exactly the stored courses whose code,
    semester and instructor equal every supplied filter, and leaves the
    store as it is; in a store the service can be in, each of them is
    returned once. *)
Theorem list_courses_exact (q : CourseQuery.t) (st : Store) :
  ∃ result,
    list_courses q st = (st, inr result)
    ∧ (∀ c, c ∈ result ↔
            (∃ k, courses st !! k = Some c) ∧ course_matches q c)
    ∧ (reachable st → NoDup result).
Proof.
  unfold list_courses, bind, gets, ret. cbv zeta. simpl.
  eexists. split; [reflexivity|]. split.
  - intros c. rewrite !elem_of_filter_by, elem_of_values.
    unfold course_matches. rewrite !filter_decide. tauto.
  - intros [rqs ->]. do 3 apply NoDup_filter_by.
    apply (NoDup_values _ CourseRead.id).
    apply (proj1 (serve_invariants rqs)).
Qed.

(** X7. GET /assignments returns every stored assignment when no
    [course_id] is given and exactly those of the given course otherwise,
    and leaves the store as it is; in a store the service can be in, each
    of them is returned once. *)
Theorem list_assignments_exact (course_id : option UUID) (st : Store) :
  ∃ result,
    list_assignments course_id st = (st, inr result)
    ∧ (∀ a, a ∈ result ↔
            (∃ k, assignments st !! k = Some a)
            ∧ (∀ u, course_id = Some u → AssignmentRead.course_id a = u))
    ∧ (reachable st → NoDup result).
Proof.
  unfold list_assignments, bind, gets, ret. cbv zeta. simpl.
  eexists. split; [reflexivity|]. split.
  - intros a. rewrite !elem_of_filter_by, elem_of_values.
    rewrite !filter_decide. tauto.
  - intros [rqs ->]. apply NoDup_filter_by.
    apply (NoDup_values _ AssignmentRead.id).
    apply (proj1 (serve_invariants rqs)).
Qed.

(** X8. GET /addresses returns exactly the stored addresses whose
    street, city, state, postal code and country equal every supplied
    filter, and leaves the store as it is; in a store the service can be
    in, each of them is returned once. *)
Theorem list_addresses_exact (q : AddressQuery.t) (st : Store) :
  ∃ results,
    list_addresses q st = (st, inr results)
    ∧ (∀ a, a ∈ results ↔
            (∃ k, addresses st !! k = Some a) ∧ address_matches q a)
    ∧ (reachable st → NoDup results).
Proof.
  unfold list_addresses, bind, gets, ret. cbv zeta. simpl.
  eexists. split; [reflexivity|]. split.
  - intros a. rewrite !elem_of_filter_by, elem_of_values.
    unfold address_matches. rewrite !filter_decide. tauto.
  - intros [rqs ->]. do 5 apply NoDup_filter_by.
    apply (NoDup_values _ AddressRead.id).
    apply (proj1 (serve_invariants rqs)).
Qed.

Lemma list_courses_exact_witness :
  let q := CourseQuery.Build (Some "COMS4153") None None in
  reachable ex_store
  ∧ ∃ result,
      list_courses q ex_store = (ex_store, inr result)
      ∧ (∀ c, c ∈ result ↔
              (∃ k, courses ex_store !! k = Some c) ∧ course_matches q c)
      ∧ NoDup result.
Proof.
  intros q. split; [exact ex_store_reachable|].
  destruct (list_courses_exact q ex_store) as (result & H1 & H2 & H3).
  exists result. split; [exact H1|]. split; [exact H2|].
  exact (H3 ex_store_reachable).
Defined.

Lemma list_assignments_exact_witness :
  reachable ex_store
  ∧ ∃ result,
      list_assignments (Some 7%N) ex_store = (ex_store, inr result)
      ∧ (∀ a, a ∈ result ↔
              (∃ k, assignments ex_store !! k = Some a)
              ∧ (∀ u, Some 7%N = Some u → AssignmentRead.course_id a = u))
      ∧ NoDup result.
Proof.
  split; [exact ex_store_reachable|].
  destruct (list_assignments_exact (Some 7%N) ex_store)
    as (result & H1 & H2 & H3).
  exists result. split; [exact H1|]. split; [exact H2|].
  exact (H3 ex_store_reachable).
Defined.

Lemma list_addresses_exact_witness :
  let q := AddressQuery.Build None (Some "NYC") None None None in
  reachable ex_store
  ∧ ∃ results,
      list_addresses q ex_store = (ex_store, inr results)
      ∧ (∀ a, a ∈ results ↔
              (∃ k, addresses ex_store !! k = Some a) ∧ address_matches q a)
      ∧ NoDup results.
Proof.
  intros q. split; [exact ex_store_reachable|].
  destruct (list_addresses_exact q ex_store) as (results & H1 & H2 & H3).
  exists results. split; [exact H1|]. split; [exact H2|].
  exact (H3 ex_store_reachable).
Defined.

(** X9. A [create_assignment] that returns normally returns a record
    with the payload's fields, the generated id and one timestamp for
    [created_at] and [updated_at], and a [course_id] that is a key of the
    course store; [get_assignment] on its id returns it and GET
    /assignments for its course lists it. *)
Theorem create_assignment_then_get (env : Env)
    (assignment : AssignmentCreate.t) (st st' : Store)
    (r : AssignmentRead.t) :
  create_assignment env assignment st = (st', inr r) →
  AssignmentRead.course_id r = AssignmentCreate.course_id assignment
  ∧ AssignmentRead.title r = AssignmentCreate.title assignment
  ∧ AssignmentRead.due_date r = AssignmentCreate.due_date assignment
  ∧ AssignmentRead.points r = AssignmentCreate.points assignment
  ∧ AssignmentRead.id r = uuid4 env
  ∧ AssignmentRead.created_at r = utcnow env
  ∧ AssignmentRead.updated_at r = AssignmentRead.created_at r
  ∧ is_Some (courses st' !! AssignmentRead.course_id r)
  ∧ get_assignment (AssignmentRead.id r) st' = (st', inr r)
  ∧ (∃ result,
       list_assignments (Some (AssignmentRead.course_id r)) st'
       = (st', inr result) ∧ r ∈ result)
  ∧ courses st' = courses st.
Proof.
  rewrite create_assignment_run.
  destruct (courses st !! _) as [c|] eqn:Hc; [|done].
  destruct (valid_points _); [|done]. intros [= <- <-].
  repeat split; try reflexivity.
  - simpl. eauto.
  - rewrite get_assignment_run. simpl. by rewrite lookup_insert_eq.
  - destruct (list_assignments_exact
                (Some (AssignmentCreate.course_id assignment))
                (set_assignments
                   (<[uuid4 env := new_assignment env assignment]>
                      (assignments st)) st))
      as (result & H1 & H2 & _).
    exists result. split; [exact H1|]. apply H2. split.
    + exists (uuid4 env). simpl. apply lookup_insert_eq.
    + by intros u [= <-].
Qed.

Lemma create_assignment_then_get_witness :
  let a := AssignmentCreate.Build 7%N "HW2" None (Some 10) in
  let r := AssignmentRead.Build 7%N "HW2" None (Some 10) 12%N 500 500 in
  let st' := (create_assignment ex_env a ex_store).1 in
  create_assignment ex_env a ex_store = (st', inr r)
  ∧ get_assignment (AssignmentRead.id r) st' = (st', inr r)
  ∧ ∃ result,
      list_assignments (Some (AssignmentRead.course_id r)) st'
      = (st', inr result) ∧ r ∈ result.
Proof.
  intros a r st'.
  assert (create_assignment ex_env a ex_store = (st', inr r)) as Hr
    by (vm_compute; reflexivity).
  destruct (create_assignment_then_get ex_env a ex_store st' r Hr)
    as (_ & _ & _ & _ & _ & _ & _ & _ & Hget & Hlist & _).
  split; [exact Hr|]. split; [exact Hget|exact Hlist].
Defined.

(** ** Deleting *)

(** X10. [delete_assignment] on a stored id removes that assignment and
    nothing else; afterwards [get_assignment] and a second
    [delete_assignment] on the id both answer 404.  On an id that is not
    stored it answers 404 and changes nothing. *)
Theorem delete_assignment_once (st : Store) (assignment_id : UUID) :
  (∀ a, assignments st !! assignment_id = Some a →
     ∃ st',
       delete_assignment assignment_id st = (st', inr tt)
       ∧ assignments st' = delete assignment_id (assignments st)
       ∧ courses st' = courses st
       ∧ persons st' = persons st ∧ addresses st' = addresses st
       ∧ get_assignment assignment_id st'
         = (st', inl (NotFound "Assignment not found"))
       ∧ delete_assignment assignment_id st'
         = (st', inl (NotFound "Assignment not found")))
  ∧ (assignments st !! assignment_id = None →
     delete_assignment assignment_id st
     = (st, inl (NotFound "Assignment not found"))).
Proof.
  split.
  - intros a Ha. eexists. rewrite delete_assignment_run, Ha.
    split; [reflexivity|]. repeat split.
    + rewrite get_assignment_run. simpl. by rewrite lookup_delete_eq.
    + rewrite delete_assignment_run. simpl. by rewrite lookup_delete_eq.
  - intros Ha. by rewrite delete_assignment_run, Ha.
Qed.

Lemma delete_assignment_once_witness :
  (assignments ex_store !! 8%N = Some ex_assignment
   ∧ ∃ st',
       delete_assignment 8%N ex_store = (st', inr tt)
       ∧ assignments st' = delete 8%N (assignments ex_store)
       ∧ courses st' = courses ex_store
       ∧ persons st' = persons ex_store
       ∧ addresses st' = addresses ex_store
       ∧ get_assignment 8%N st'
         = (st', inl (NotFound "Assignment not found"))
       ∧ delete_assignment 8%N st'
         = (st', inl (NotFound "Assignment not found")))
  ∧ (assignments ex_store !! 5%N = None
     ∧ delete_assignment 5%N ex_store
       = (ex_store, inl (NotFound "Assignment not found"))).
Proof.
  split; split.
  - vm_compute; reflexivity.
  - apply (proj1 (delete_assignment_once ex_store 8%N) ex_assignment).
    vm_compute; reflexivity.
  - vm_compute; reflexivity.
  - apply (proj2 (delete_assignment_once ex_store 5%N)).
    vm_compute; reflexivity.
Defined.

Lemma list_assignments_run (course_id : option UUID) (st : Store) :
  list_assignments course_id st
  = (st, inr (filter_by course_id
                (λ course_id a,
                   bool_decide (AssignmentRead.course_id a = course_id))
                (values (assignments st)))).
Proof. reflexivity. Qed.

(** X11. After [delete_course] on a stored id, GET /assignments for that
    course is empty, a second [delete_course] on the id answers 404, the
    persons and addresses are untouched and every other course is still
    stored. *)
Theorem delete_course_then_list (st : Store) (course_id : UUID)
    (c : CourseRead.t) :
  courses st !! course_id = Some c →
  ∃ st',
    delete_course course_id st = (st', inr tt)
    ∧ list_assignments (Some course_id) st' = (st', inr [])
    ∧ delete_course course_id st'
      = (st', inl (NotFound "Course not found"))
    ∧ persons st' = persons st ∧ addresses st' = addresses st
    ∧ (∀ k, k ≠ course_id → courses st' !! k = courses st !! k).
Proof.
  intros Hc. eexists. rewrite delete_course_run, Hc.
  split; [reflexivity|]. repeat split.
  - rewrite list_assignments_run, filter_by_nil; [done|].
    simpl. intros a Ha. exists course_id. split; [done|].
    apply elem_of_values in Ha as [k Hk].
    rewrite lookup_cascade in Hk.
    destruct (assignments st !! k) as [a0|]; [|done].
    case_decide; [done|]. injection Hk as <-.
    by apply bool_decide_eq_false.
  - rewrite delete_course_run. simpl. by rewrite lookup_delete_eq.
  - intros k Hk. simpl. by rewrite lookup_delete_ne.
Qed.

Lemma delete_course_then_list_witness :
  courses ex_store !! 7%N = Some ex_course
  ∧ ∃ st',
      delete_course 7%N ex_store = (st', inr tt)
      ∧ list_assignments (Some 7%N) st' = (st', inr [])
      ∧ delete_course 7%N st' = (st', inl (NotFound "Course not found"))
      ∧ persons st' = persons ex_store ∧ addresses st' = addresses ex_store
      ∧ (∀ k, k ≠ 7%N → courses st' !! k = courses ex_store !! k).
Proof.
  split; [vm_compute; reflexivity|].
  apply (delete_course_then_list ex_store 7%N ex_course).
  vm_compute; reflexivity.
Defined.

(** ** The models *)

(** X12. Dumping a record and building the model again from the dump
    gives the record back: always for a course, and for an assignment
    exactly when its points is null or within 0..1000 (the constructor
    raises otherwise). *)
Theorem model_dump_validate_roundtrip :
  (∀ env r, CourseRead.validate env (CourseRead.model_dump r) = Some r)
  ∧ (∀ c, CourseCreate.validate (CourseCreate.model_dump c) = Some c)
  ∧ (∀ env a,
       AssignmentRead.validate env (AssignmentRead.model_dump a)
       = if valid_points (AssignmentRead.points a) then Some a else None)
  ∧ (∀ a,
       AssignmentCreate.validate (AssignmentCreate.model_dump a)
       = if valid_points (AssignmentCreate.points a) then Some a else None).
Proof.
  split; [|split; [|split]].
  - intros env r. destruct env, r. vm_compute. reflexivity.
  - intros c. destruct c. vm_compute. reflexivity.
  - intros env a. set (data := AssignmentRead.model_dump a).
    assert (data !! "course_id" = Some (VUuid (AssignmentRead.course_id a))
            ∧ data !! "title" = Some (VStr (AssignmentRead.title a))
            ∧ data !! "due_date"
              = Some (dump_opt VDate (AssignmentRead.due_date a))
            ∧ data !! "points"
              = Some (dump_opt VInt (AssignmentRead.points a))
            ∧ data !! "id" = Some (VUuid (AssignmentRead.id a))
            ∧ data !! "created_at"
              = Some (VDatetime (AssignmentRead.created_at a))
            ∧ data !! "updated_at"
              = Some (VDatetime (AssignmentRead.updated_at a)))
      as (L1 & L2 & L3 & L4 & L5 & L6 & L7).
    { subst data. destruct a as [? ? [] [] ? ? ?];
        vm_compute; repeat split; reflexivity. }
    unfold AssignmentRead.validate, field_uuid, field_str, field_default.
    rewrite L1, L2, L3, L4, L5, L6, L7.
    destruct a as [cid t [d|] [z|] i ca ua]; simpl; try reflexivity;
      destruct (bool_decide (0 ≤ z ∧ z ≤ 1000)); reflexivity.
  - intros a. set (data := AssignmentCreate.model_dump a).
    assert (data !! "course_id"
              = Some (VUuid (AssignmentCreate.course_id a))
            ∧ data !! "title" = Some (VStr (AssignmentCreate.title a))
            ∧ data !! "due_date"
              = Some (dump_opt VDate (AssignmentCreate.due_date a))
            ∧ data !! "points"
              = Some (dump_opt VInt (AssignmentCreate.points a)))
      as (L1 & L2 & L3 & L4).
    { subst data. destruct a as [? ? [] []];
        vm_compute; repeat split; reflexivity. }
    unfold AssignmentCreate.validate, field_uuid, field_str, field_default.
    rewrite L1, L2, L3, L4.
    destruct a as [cid t [d|] [z|]]; simpl; try reflexivity;
      destruct (bool_decide (0 ≤ z ∧ z ≤ 1000)); reflexivity.
Qed.

Ltac crush_validate :=
  repeat (match goal with
          | |- context [match ?x with _ => _ end] => destruct x
          end; simpl; try done).

(** X13. A POST /courses whose body lacks code, title, instructor or
    semester, or holds null there, and a POST /assignments whose body
    lacks course_id or title, or holds null there, is answered 422
    before the handler runs: the store is unchanged. *)
Theorem post_requires_fields (env : Env) (body : pydict) (st : Store)
    (k : string) :
  body !! k = None ∨ body !! k = Some VNone →
  (k ∈ ["code"; "title"; "instructor"; "semester"] →
   route env (POST_courses body) st = (st, inl RequestValidationError))
  ∧ (k ∈ ["course_id"; "title"] →
     route env (POST_assignments body) st
     = (st, inl RequestValidationError)).
Proof.
  intros Hk. split; intros Hin; enter_route.
  - assert (CourseCreate.validate body = None) as ->; [|done].
    unfold CourseCreate.validate, field_str.
    repeat (apply elem_of_cons in Hin as [->|Hin]);
      try (by apply elem_of_nil in Hin);
      destruct Hk as [Hk|Hk]; rewrite Hk; crush_validate.
  - assert (AssignmentCreate.validate body = None) as ->; [|done].
    unfold AssignmentCreate.validate, field_uuid, field_str.
    repeat (apply elem_of_cons in Hin as [->|Hin]);
      try (by apply elem_of_nil in Hin);
      destruct Hk as [Hk|Hk]; rewrite Hk; crush_validate.
Qed.

Lemma post_requires_fields_witness :
  let body := delete "title" ex_course_body in
  (body !! "title" = None ∨ body !! "title" = Some VNone)
  ∧ "title" ∈ ["code"; "title"; "instructor"; "semester"]
  ∧ route ex_env (POST_courses body) ex_store
    = (ex_store, inl RequestValidationError)
  ∧ "title" ∈ ["course_id"; "title"]
  ∧ route ex_env (POST_assignments body) ex_store
    = (ex_store, inl RequestValidationError).
Proof.
  intros body.
  assert (body !! "title" = None ∨ body !! "title" = Some VNone) as Hk
    by (left; vm_compute; reflexivity).
  assert ("title" ∈ ["code"; "title"; "instructor"; "semester"]) as H1
    by (right; left).
  assert ("title" ∈ ["course_id"; "title"]) as H2 by (right; left).
  split; [exact Hk|]. split; [exact H1|]. split; [|split; [exact H2|]].
  - exact (proj1 (post_requires_fields ex_env body ex_store "title" Hk) H1).
  - exact (proj2 (post_requires_fields ex_env body ex_store "title" Hk) H2).
Defined.

(** ** Partial updates: when they fail and when they succeed *)

Lemma course_clash_null_l (cs : gmap UUID CourseRead.t) (course_id : UUID)
    (new_sem : value) :
  course_clash cs course_id VNone new_sem = false.
Proof.
  destruct (course_clash _ _ _ _) eqn:Hc; [|done].
  apply course_clash_true in Hc as (k & c & _ & _ & Hcode & _). done.
Qed.

Lemma course_clash_null_r (cs : gmap UUID CourseRead.t) (course_id : UUID)
    (new_code : value) :
  course_clash cs course_id new_code VNone = false.
Proof.
  destruct (course_clash _ _ _ _) eqn:Hc; [|done].
  apply course_clash_true in Hc as (k & c & _ & _ & _ & Hsem). done.
Qed.

(** X14. A PATCH /courses payload that sets code, title, instructor or
    semester to null never succeeds and changes nothing; on a stored
    course, a null code or semester is answered by the uncaught
    ValidationError of the record constructor, never by 409. *)
Theorem update_course_null_fails (env : Env) (course_id : UUID)
    (update : CourseUpdate.t) (st : Store) :
  CourseUpdate.code update = Some None
  ∨ CourseUpdate.title update = Some None
  ∨ CourseUpdate.instructor update = Some None
  ∨ CourseUpdate.semester update = Some None →
  (∃ e, update_course env course_id update st = (st, inl e))
  ∧ (is_Some (courses st !! course_id) →
     CourseUpdate.code update = Some None
     ∨ CourseUpdate.semester update = Some None →
     update_course env course_id update st = (st, inl ValidationError)).
Proof.
  intros Hnull. rewrite update_course_run.
  destruct (courses st !! course_id) as [cur|]; [|split; [eauto|]].
  2: { by intros [? ?]. }
  assert (CourseRead.validate env (course_kwargs env cur update) = None)
    as Hv.
  { destruct (CourseRead.validate _ _) as [r|] eqn:Hv; [|done]. exfalso.
    apply CourseRead_validate_inv in Hv as (H1 & H2 & H3 & H4 & _).
    destruct (course_kwargs_lookup env cur update)
      as (L1 & L2 & L3 & L4 & _).
    rewrite L1 in H1. rewrite L2 in H2. rewrite L3 in H3. rewrite L4 in H4.
    destruct Hnull as [E|[E|[E|E]]]; rewrite E in *; done. }
  rewrite Hv. split.
  - destruct (course_clash _ _ _ _); eauto.
  - intros _ [E|E]; rewrite E; simpl.
    + by rewrite course_clash_null_l.
    + by rewrite course_clash_null_r.
Qed.

Lemma update_course_null_fails_witness :
  let u := CourseUpdate.Build (Some None) None None None in
  (CourseUpdate.code u = Some None
   ∨ CourseUpdate.title u = Some None
   ∨ CourseUpdate.instructor u = Some None
   ∨ CourseUpdate.semester u = Some None)
  ∧ is_Some (courses ex_store !! 7%N)
  ∧ update_course ex_env 7%N u ex_store = (ex_store, inl ValidationError).
Proof.
  intros u.
  assert (CourseUpdate.code u = Some None
          ∨ CourseUpdate.title u = Some None
          ∨ CourseUpdate.instructor u = Some None
          ∨ CourseUpdate.semester u = Some None) as Hn by (left; reflexivity).
  assert (is_Some (courses ex_store !! 7%N)) as Hs by (vm_compute; eauto).
  split; [exact Hn|]. split; [exact Hs|].
  exact (proj2 (update_course_null_fails ex_env 7%N u ex_store Hn) Hs
           (or_introl eq_refl)).
Defined.

(** X15. A PATCH /assignments payload on a stored assignment that sets
    course_id to null is answered 400, as an unknown course would be; one
    that sets title to null never succeeds.  Neither changes the store. *)
Theorem update_assignment_null_fails (env : Env) (assignment_id : UUID)
    (update : AssignmentUpdate.t) (st : Store) :
  (∀ cur, assignments st !! assignment_id = Some cur →
          AssignmentUpdate.course_id update = Some None →
          update_assignment env assignment_id update st
          = (st, inl BadReference))
  ∧ (AssignmentUpdate.title update = Some None →
     ∃ e, update_assignment env assignment_id update st = (st, inl e)).
Proof.
  split.
  - intros cur Hcur Hnull. rewrite update_assignment_run, Hcur.
    unfold dangling. by rewrite Hnull.
  - intros Hnull. rewrite update_assignment_run.
    destruct (assignments st !! assignment_id) as [cur|]; [|eauto].
    destruct (dangling _ _); [eauto|].
    destruct (AssignmentRead.validate _ _) as [r|] eqn:Hv; [|eauto].
    exfalso. apply AssignmentRead_validate_inv in Hv as (_ & H2 & _).
    destruct (assignment_kwargs_lookup env cur update) as (_ & L2 & _).
    rewrite L2, Hnull in H2. done.
Qed.

Lemma update_assignment_null_fails_witness :
  let u := AssignmentUpdate.Build (Some None) (Some None) None None in
  (assignments ex_store !! 8%N = Some ex_assignment
   ∧ AssignmentUpdate.course_id u = Some None
   ∧ update_assignment ex_env 8%N u ex_store = (ex_store, inl BadReference))
  ∧ (AssignmentUpdate.title u = Some None
     ∧ ∃ e, update_assignment ex_env 8%N u ex_store = (ex_store, inl e)).
Proof.
  intros u. split.
  - split; [vm_compute; reflexivity|]. split; [reflexivity|].
    apply (proj1 (update_assignment_null_fails ex_env 8%N u ex_store)
             ex_assignment); [vm_compute; reflexivity|reflexivity].
  - split; [reflexivity|].
    apply (proj2 (update_assignment_null_fails ex_env 8%N u ex_store)).
    reflexivity.
Defined.

Lemma same_keys_refl (st : Store) : same_keys st st.
Proof. by repeat split. Qed.

(** X16. No PATCH route adds or removes a key of any store, whatever it
    answers: an update never creates a record. *)
Theorem patch_keeps_keys (env : Env) (id : UUID) (body : pydict)
    (st : Store) :
  same_keys st (route env (PATCH_addresses id body) st).1
  ∧ same_keys st (route env (PATCH_persons id body) st).1
  ∧ same_keys st (route env (PATCH_courses id body) st).1
  ∧ same_keys st (route env (PATCH_assignments id body) st).1.
Proof.
  split; [|split; [|split]].
  - destruct (route env (PATCH_addresses id body) st) as [st' [e|resp]] eqn:Hr.
    { apply route_inl in Hr as ->. apply same_keys_refl. }
    revert Hr. enter_route.
    destruct (AddressUpdate.validate body) as [u|]; [|done]. unfold bind.
    destruct (update_address env id u st) as [st1 [e|r]] eqn:Hu; [done|].
    intros [= <- _].
    apply update_address_inr in Hu as (cur & Hcur & -> & _).
    repeat split; simpl. apply dom_insert_lookup_L. eauto.
  - destruct (route env (PATCH_persons id body) st) as [st' [e|resp]] eqn:Hr.
    { apply route_inl in Hr as ->. apply same_keys_refl. }
    revert Hr. enter_route.
    destruct (PersonUpdate.validate body) as [u|]; [|done]. unfold bind.
    destruct (update_person env id u st) as [st1 [e|r]] eqn:Hu; [done|].
    intros [= <- _].
    apply update_person_inr in Hu as (cur & Hcur & -> & _).
    repeat split; simpl. apply dom_insert_lookup_L. eauto.
  - destruct (route env (PATCH_courses id body) st) as [st' [e|resp]] eqn:Hr.
    { apply route_inl in Hr as ->. apply same_keys_refl. }
    revert Hr. enter_route.
    destruct (CourseUpdate.validate body) as [u|]; [|done]. unfold bind.
    destruct (update_course env id u st) as [st1 [e|r]] eqn:Hu; [done|].
    intros [= <- _].
    apply update_course_inr in Hu as (cur & Hcur & -> & _).
    repeat split; simpl. apply dom_insert_lookup_L. eauto.
  - destruct (route env (PATCH_assignments id body) st)
      as [st' [e|resp]] eqn:Hr.
    { apply route_inl in Hr as ->. apply same_keys_refl. }
    revert Hr. enter_route.
    destruct (AssignmentUpdate.validate body) as [u|]; [|done]. unfold bind.
    destruct (update_assignment env id u st) as [st1 [e|r]] eqn:Hu; [done|].
    intros [= <- _].
    apply update_assignment_inr in Hu as (cur & Hcur & -> & _).
    repeat split; simpl. apply dom_insert_lookup_L. eauto.
Qed.

Lemma patched_field_nonnull {A} (inj : A → value) (f : option (option A))
    (old : A) :
  f ≠ Some None → patched inj f (inj old) = inj (patch_field f old).
Proof. destruct f as [[v|]|]; simpl; done. Qed.

Lemma course_kwargs_validate (env : Env) (cur : CourseRead.t)
    (update : CourseUpdate.t) :
  CourseUpdate.code update ≠ Some None →
  CourseUpdate.title update ≠ Some None →
  CourseUpdate.instructor update ≠ Some None →
  CourseUpdate.semester update ≠ Some None →
  CourseRead.validate env (course_kwargs env cur update)
  = Some (patched_course env update cur).
Proof.
  intros H1 H2 H3 H4.
  destruct (course_kwargs_lookup env cur update)
    as (L1 & L2 & L3 & L4 & L5 & L6 & L7).
  rewrite patched_field_nonnull in L1, L2, L3, L4 by done.
  unfold CourseRead.validate, field_str, field_default.
  rewrite L1, L2, L3, L4, L5, L6, L7. reflexivity.
Qed.

(** X17. [update_course] on a stored course succeeds whenever the
    payload sets no field to null and no stored course with another id
    has the (code, semester) of the merged record; it then stores and
    returns the merged record: the payload's fields over the stored ones,
    id and created_at kept, updated_at the current time. *)
Theorem update_course_succeeds (env : Env) (course_id : UUID)
    (update : CourseUpdate.t) (st : Store) (cur : CourseRead.t) :
  courses st !! course_id = Some cur →
  CourseUpdate.code update ≠ Some None →
  CourseUpdate.title update ≠ Some None →
  CourseUpdate.instructor update ≠ Some None →
  CourseUpdate.semester update ≠ Some None →
  (∀ k c, courses st !! k = Some c → CourseRead.id c ≠ course_id →
          ¬ (CourseRead.code c = CourseRead.code (patched_course env update cur)
             ∧ CourseRead.semester c
               = CourseRead.semester (patched_course env update cur))) →
  update_course env course_id update st
  = (set_courses (<[course_id := patched_course env update cur]> (courses st))
       st,
     inr (patched_course env update cur)).
Proof.
  intros Hcur H1 H2 H3 H4 Hfree.
  rewrite update_course_run, Hcur.
  rewrite !patched_field_nonnull by done.
  destruct (course_clash _ _ _ _) eqn:Hclash.
  - apply course_clash_true in Hclash as (k & c & Hk & Hid & Hcode & Hsem).
    exfalso. apply (Hfree k c Hk Hid). simpl. split; congruence.
  - by rewrite course_kwargs_validate.
Qed.

Lemma update_course_succeeds_witness :
  let u := CourseUpdate.Build (Some (Some "COMS4999")) None None None in
  courses ex_store !! 7%N = Some ex_course
  ∧ update_course ex_env 7%N u ex_store
    = (set_courses (<[7%N := patched_course ex_env u ex_course]>
                      (courses ex_store)) ex_store,
       inr (patched_course ex_env u ex_course)).
Proof.
  intros u. split; [vm_compute; reflexivity|].
  apply (update_course_succeeds ex_env 7%N u ex_store ex_course);
    [vm_compute; reflexivity|done|done|done|done|].
  intros k c.
  change (courses ex_store) with ({[7%N := ex_course]} : gmap UUID _).
  intros [<- <-]%lookup_singleton_Some. simpl. done.
Defined.

(** X18. In a store the service can be in, an update of a stored course
    that sets no field to null and leaves the course's (code, semester)
    as it is (an empty payload, or a new title or instructor) always
    succeeds: it cannot answer 409.  With an empty payload only
    updated_at changes. *)
Theorem update_course_same_pair (env : Env) (course_id : UUID)
    (update : CourseUpdate.t) (st : Store) (cur : CourseRead.t) :
  reachable st →
  courses st !! course_id = Some cur →
  CourseUpdate.title update ≠ Some None →
  CourseUpdate.instructor update ≠ Some None →
  CourseUpdate.code update = None
  ∨ CourseUpdate.code update = Some (Some (CourseRead.code cur)) →
  CourseUpdate.semester update = None
  ∨ CourseUpdate.semester update = Some (Some (CourseRead.semester cur)) →
  update_course env course_id update st
  = (set_courses (<[course_id := patched_course env update cur]> (courses st))
       st,
     inr (patched_course env update cur))
  ∧ CourseRead.code (patched_course env update cur) = CourseRead.code cur
  ∧ CourseRead.semester (patched_course env update cur)
    = CourseRead.semester cur
  ∧ (update = CourseUpdate.Build None None None None →
     patched_course env update cur
     = CourseRead.Build (CourseRead.code cur) (CourseRead.title cur)
         (CourseRead.instructor cur) (CourseRead.semester cur)
         (CourseRead.id cur) (CourseRead.created_at cur) (utcnow env)).
Proof.
  intros [rqs ->] Hcur H2 H3 Hcode Hsem.
  destruct (serve_invariants rqs) as ((_ & _ & Hkey & _) & Huniq & _).
  assert (CourseRead.code (patched_course env update cur)
          = CourseRead.code cur) as Ec.
  { simpl. destruct Hcode as [-> | ->]; reflexivity. }
  assert (CourseRead.semester (patched_course env update cur)
          = CourseRead.semester cur) as Es.
  { simpl. destruct Hsem as [-> | ->]; reflexivity. }
  split; [|split; [done|split; [done|by intros ->]]].
  apply update_course_succeeds; try done.
  - destruct Hcode as [-> | ->]; done.
  - destruct Hsem as [-> | ->]; done.
  - intros k c Hk Hid [Hc Hs]. rewrite Ec in Hc. rewrite Es in Hs.
    apply Hid. rewrite (Hkey k c Hk).
    by apply (Huniq k course_id c cur).
Qed.

Lemma update_course_same_pair_witness :
  let u := CourseUpdate.Build None None None None in
  reachable ex_store
  ∧ courses ex_store !! 7%N = Some ex_course
  ∧ update_course ex_env 7%N u ex_store
    = (set_courses (<[7%N := patched_course ex_env u ex_course]>
                      (courses ex_store)) ex_store,
       inr (patched_course ex_env u ex_course)).
Proof.
  intros u. split; [exact ex_store_reachable|].
  split; [vm_compute; reflexivity|].
  apply (update_course_same_pair ex_env 7%N u ex_store ex_course);
    [exact ex_store_reachable|vm_compute; reflexivity|done|done|by left
    |by left].
Defined.

(** X19. [update_assignment] on a stored assignment succeeds whenever
    the payload leaves course_id unset or sets it to the id of a stored
    course, does not set title to null, and the points of the merged
    record is null or within 0..1000; it then stores and returns the
    merged record, with updated_at the current time.  A null due_date or
    points clears the field. *)
Theorem update_assignment_succeeds (env : Env) (assignment_id : UUID)
    (update : AssignmentUpdate.t) (st : Store) (cur : AssignmentRead.t) :
  assignments st !! assignment_id = Some cur →
  AssignmentUpdate.course_id update = None
  ∨ (∃ c, AssignmentUpdate.course_id update = Some (Some c)
          ∧ is_Some (courses st !! c)) →
  AssignmentUpdate.title update ≠ Some None →
  valid_points (patch_nullable (AssignmentUpdate.points update)
                               (AssignmentRead.points cur)) = true →
  update_assignment env assignment_id update st
  = (set_assignments
       (<[assignment_id := patched_assignment env update cur]>
          (assignments st)) st,
     inr (patched_assignment env update cur)).
Proof.
  intros Hcur Hcid Htitle Hpts.
  rewrite update_assignment_run, Hcur.
  assert (dangling (courses st) update = false) as ->.
  { unfold dangling. destruct Hcid as [-> | (c & -> & Hc)]; [done|].
    by rewrite bool_decide_eq_true_2. }
  assert (AssignmentRead.validate env (assignment_kwargs env cur update)
          = Some (patched_assignment env update cur)) as ->; [|done].
  destruct (assignment_kwargs_lookup env cur update)
    as (L1 & L2 & L3 & L4 & L5 & L6 & L7).
  unfold AssignmentRead.validate, field_uuid, field_str, field_default.
  rewrite L1, L2, L3, L4, L5, L6, L7.
  unfold patched_assignment.
  destruct update as [cu tu du pu]; simpl in *.
  destruct Hcid as [-> | (c & -> & _)];
    destruct tu as [[t|]|]; try done;
    destruct du as [[d|]|]; destruct pu as [[z|]|]; simpl in *;
    try reflexivity;
    try (rewrite Hpts; reflexivity);
    destruct (AssignmentRead.due_date cur);
    destruct (AssignmentRead.points cur) as [z'|]; simpl in *;
    try reflexivity; rewrite Hpts; reflexivity.
Qed.

Lemma update_assignment_succeeds_witness :
  let u := AssignmentUpdate.Build None None (Some None) (Some None) in
  assignments ex_store !! 8%N = Some ex_assignment
  ∧ update_assignment ex_env 8%N u ex_store
    = (set_assignments
         (<[8%N := patched_assignment ex_env u ex_assignment]>
            (assignments ex_store)) ex_store,
       inr (patched_assignment ex_env u ex_assignment))
  ∧ AssignmentRead.points (patched_assignment ex_env u ex_assignment) = None.
Proof.
  intros u. split; [vm_compute; reflexivity|]. split; [|reflexivity].
  apply (update_assignment_succeeds ex_env 8%N u ex_store ex_assignment);
    [vm_compute; reflexivity|by left|done|reflexivity].
Defined.
